(** * Cancellation flow: the wizard's state machine and the /api/cancellation route

    A shallow embedding of
    - [src/components/cancellation-flow.tsx]: the flow state, the validation
      predicates, the handlers and the controls that fire them;
    - [src/hooks/usecancellationflow.tsx]: the submission call;
    - [src/app/api/cancellation/route.ts]: [getOrAssignVariant] and [POST];
    - [src/types/database.ts]: the rows of the two tables.

    Conventions.  A JavaScript string is a [string]; one character stands for
    one code unit, so [String.length] is the [.length] of the source.  A value
    of type [T | null] is an [option T].  A JavaScript [number] that only
    counts is a [Z]. *)

From Stdlib Require Import ZArith List String Ascii Bool Lia.
From stdpp Require Import base option strings gmap.
Import ListNotations.

Local Open Scope string_scope.
Local Open Scope Z_scope.

(** ** JavaScript primitives used by the component *)

Module Js.

(** [!!s] for a string: every string but the empty one is truthy. *)
Definition truthy_string (s : string) : bool :=
  negb (String.eqb s "").

(** [!!v] for [v : string | null]. *)
Definition truthy_nullable (v : option string) : bool :=
  match v with
  | Some s => truthy_string s
  | None => false
  end.

(** [!!v] for [v : boolean | null]. *)
Definition truthy_flag (v : option bool) : bool :=
  match v with
  | Some b => b
  | None => false
  end.

(** White space and line terminators below U+0100, the characters that
    [String.prototype.trim] strips among those a [string] here can hold. *)
Definition is_white (c : ascii) : bool :=
  let n := nat_of_ascii c in
  ((9 <=? n)%nat && (n <=? 13)%nat) || (n =? 32)%nat || (n =? 160)%nat.

Fixpoint trimStart (s : string) : string :=
  match s with
  | EmptyString => EmptyString
  | String c rest => if is_white c then trimStart rest else s
  end.

Fixpoint trimEnd (s : string) : string :=
  match s with
  | EmptyString => EmptyString
  | String c rest =>
      match trimEnd rest with
      | EmptyString => if is_white c then EmptyString else String c EmptyString
      | kept => String c kept
      end
  end.

Definition trim (s : string) : string := trimEnd (trimStart s).

End Js.

(** ** The flow state ([cancellation-flow.tsx], lines 9-58) *)

Module FlowStep.
Inductive t : Set :=
| job_question
| survey
| feedback
| congratulations
| visa_support
| visa_yes
| visa_no
| success
| success_alt
| retention_offer
| retention_accepted
| retention_survey
| retention_reason
| retention_price
| retention_platform
| retention_jobs
| retention_move
| retention_other
| retention_final.

Definition eq_dec (a b : t) : {a = b} + {a <> b}.
Proof. decide equality. Defined.

Definition eqb (a b : t) : bool := if eq_dec a b then true else false.
End FlowStep.
Abbreviation FlowStep := FlowStep.t.

Module SurveyData.
Record t : Set := mk {
  foundJobWithMM : option bool;
  rolesApplied : option string;
  companiesEmailed : option string;
  companiesInterviewed : option string;
}.
End SurveyData.
Abbreviation SurveyData := SurveyData.t.

Module RetentionData.
Record t : Set := mk {
  rolesApplied : option string;
  companiesEmailed : option string;
  companiesInterviewed : option string;
  cancellationReason : option string;
  maxPrice : string;
  reasonFeedback : string;
}.
End RetentionData.
Abbreviation RetentionData := RetentionData.t.

Record FlowState : Set := mkFlowState {
  step : FlowStep;
  hasJob : option bool;
  surveyData : SurveyData;
  feedback : string;
  hasLawyer : option bool;
  visaType : string;
  completedSteps : Z;
  retentionData : RetentionData;
}.

(** The object spreads [{ ...prev, field: value }] of the handlers. *)
Definition with_step (prev : FlowState) (st : FlowStep) : FlowState :=
  {| step := st; hasJob := hasJob prev; surveyData := surveyData prev;
     feedback := feedback prev; hasLawyer := hasLawyer prev;
     visaType := visaType prev; completedSteps := completedSteps prev;
     retentionData := retentionData prev |}.

Definition with_hasJob (prev : FlowState) (v : option bool) : FlowState :=
  {| step := step prev; hasJob := v; surveyData := surveyData prev;
     feedback := feedback prev; hasLawyer := hasLawyer prev;
     visaType := visaType prev; completedSteps := completedSteps prev;
     retentionData := retentionData prev |}.

Definition with_hasLawyer (prev : FlowState) (v : option bool) : FlowState :=
  {| step := step prev; hasJob := hasJob prev; surveyData := surveyData prev;
     feedback := feedback prev; hasLawyer := v;
     visaType := visaType prev; completedSteps := completedSteps prev;
     retentionData := retentionData prev |}.

Definition with_completedSteps (prev : FlowState) (n : Z) : FlowState :=
  {| step := step prev; hasJob := hasJob prev; surveyData := surveyData prev;
     feedback := feedback prev; hasLawyer := hasLawyer prev;
     visaType := visaType prev; completedSteps := n;
     retentionData := retentionData prev |}.

Definition CANCELLATION_REASONS : list string :=
  [ "Too expensive"; "Platform not helpful"; "Not enough relevant jobs";
    "Decided not to move"; "Other" ].

Definition MIN_FEEDBACK_LENGTH : Z := 25.

Definition initialState : FlowState :=
  {| step := FlowStep.job_question;
     hasJob := None;
     surveyData :=
       {| SurveyData.foundJobWithMM := None;
          SurveyData.rolesApplied := None;
          SurveyData.companiesEmailed := None;
          SurveyData.companiesInterviewed := None |};
     feedback := "";
     hasLawyer := None;
     visaType := "";
     completedSteps := 0;
     retentionData :=
       {| RetentionData.rolesApplied := None;
          RetentionData.companiesEmailed := None;
          RetentionData.companiesInterviewed := None;
          RetentionData.cancellationReason := None;
          RetentionData.maxPrice := "";
          RetentionData.reasonFeedback := "" |} |}.

(** ** The submission call ([usecancellationflow.tsx], lines 51-67)

    [submitCancellation(accepted_downsell, reason?)] sends one request and
    gives nothing back to the component.  A handler's submissions are listed
    in the order of the calls. *)

Record Submission : Set := mkSubmission {
  accepted_downsell : bool;
  reason : option string;
}.

Definition submitCancellation (accepted : bool) (why : string) : Submission :=
  {| accepted_downsell := accepted; reason := Some why |}.

(** What firing a control yields: the next flow state and the submissions
    dispatched on the way. *)
Definition Outcome : Set := (FlowState * list Submission)%type.

(** ** Validation predicates (lines 116-135 and the [disabled] attributes) *)

Definition isSurveyValid (flowState : FlowState) : bool :=
  match SurveyData.foundJobWithMM (surveyData flowState) with
  | Some _ => true
  | None => false
  end
  && Js.truthy_nullable (SurveyData.rolesApplied (surveyData flowState))
  && Js.truthy_nullable (SurveyData.companiesEmailed (surveyData flowState))
  && Js.truthy_nullable (SurveyData.companiesInterviewed (surveyData flowState)).

Definition isRetentionSurveyValid (flowState : FlowState) : bool :=
  Js.truthy_nullable (RetentionData.rolesApplied (retentionData flowState))
  && Js.truthy_nullable (RetentionData.companiesEmailed (retentionData flowState))
  && Js.truthy_nullable (RetentionData.companiesInterviewed (retentionData flowState)).

Definition isFeedbackValid (flowState : FlowState) : bool :=
  MIN_FEEDBACK_LENGTH <=? Z.of_nat (String.length (feedback flowState)).

Definition isReasonFeedbackValid (flowState : FlowState) : bool :=
  MIN_FEEDBACK_LENGTH
    <=? Z.of_nat (String.length (RetentionData.reasonFeedback (retentionData flowState))).

(** ** Handlers (lines 138-239)

    A handler built by [useCallback] reads [flowState], the state of the
    render that created it, and hands [setFlowState] an updater that receives
    [prev].  Both are arguments here; a handler that reads only [prev] takes
    only [prev]. *)

Definition handleJobResponse (answer : bool) (prev : FlowState) : Outcome :=
  (with_step (with_hasJob prev (Some answer))
     (if answer then FlowStep.survey else FlowStep.retention_offer),
   []).

Definition handleSurveySubmit (prev : FlowState) : Outcome :=
  (with_completedSteps (with_step prev FlowStep.feedback) 1, []).

Definition handleFeedbackSubmit (prev : FlowState) : Outcome :=
  (with_completedSteps (with_step prev FlowStep.congratulations) 2, []).

Definition handleCongratulationsNext (prev : FlowState) : Outcome :=
  (with_completedSteps (with_step prev FlowStep.visa_support) 3, []).

Definition handleVisaSupportResponse (answer : bool) (prev : FlowState) : Outcome :=
  (with_step (with_hasLawyer prev (Some answer))
     (if answer then FlowStep.visa_yes else FlowStep.visa_no),
   []).

Definition handleVisaDetailsSubmit (flowState prev : FlowState) : Outcome :=
  (with_step prev
     (if Js.truthy_flag (hasLawyer flowState)
      then FlowStep.success else FlowStep.success_alt),
   [submitCancellation false "Completed visa support flow"]).

Definition handleRetentionOffer (accepted : bool) (prev : FlowState) : Outcome :=
  (with_completedSteps
     (with_step prev
        (if accepted then FlowStep.retention_accepted else FlowStep.retention_survey))
     (if accepted then 0 else 1),
   if accepted then [submitCancellation true "Accepted retention offer"] else []).

Definition handleRetentionSurveySubmit (prev : FlowState) : Outcome :=
  (with_completedSteps (with_step prev FlowStep.retention_reason) 2, []).

(** The routing table of [handleRetentionReasonSubmit], as the map of its
    five own keys.  The radios of the retention-reason panel are the only
    writers of [cancellationReason] and store one of [CANCELLATION_REASONS].
    The lookup of the source also answers the names that every object
    inherits ([inherited_names] below); this map and [nextStep] are the
    source's lookup for every other string. *)
Definition stepMap : gmap string FlowStep :=
  list_to_map
    [ ("Too expensive", FlowStep.retention_price);
      ("Platform not helpful", FlowStep.retention_platform);
      ("Not enough relevant jobs", FlowStep.retention_jobs);
      ("Decided not to move", FlowStep.retention_move);
      ("Other", FlowStep.retention_other) ].

(** [reason && stepMap[reason] ? stepMap[reason] : "retention-final"] *)
Definition nextStep (why : option string) : FlowStep :=
  match why with
  | Some r =>
      if Js.truthy_string r
      then match stepMap !! r with
           | Some st => st
           | None => FlowStep.retention_final
           end
      else FlowStep.retention_final
  | None => FlowStep.retention_final
  end.

Definition handleRetentionReasonSubmit (flowState prev : FlowState) : Outcome :=
  (with_completedSteps
     (with_step prev
        (nextStep (RetentionData.cancellationReason (retentionData flowState))))
     3,
   []).

(** A template literal prints [null] as the text "null". *)
Definition interpolate (v : option string) : string :=
  match v with
  | Some s => s
  | None => "null"
  end.

Definition handleReasonFeedbackSubmit (flowState prev : FlowState) : Outcome :=
  (with_completedSteps (with_step prev FlowStep.retention_final) 3,
   [submitCancellation false
      (interpolate (RetentionData.cancellationReason (retentionData flowState))
       +:+ ": " +:+ RetentionData.reasonFeedback (retentionData flowState))]).

Definition handleRetentionPriceSubmit (flowState prev : FlowState) : Outcome :=
  (with_completedSteps (with_step prev FlowStep.retention_final) 3,
   [submitCancellation false
      ("Too expensive - willing to pay: $"
       +:+ RetentionData.maxPrice (retentionData flowState))]).

(** [backMap] of [goBack]: a partial record over the steps. *)
Definition backMap (st : FlowStep) : option FlowStep :=
  match st with
  | FlowStep.survey => Some FlowStep.job_question
  | FlowStep.feedback => Some FlowStep.survey
  | FlowStep.congratulations => Some FlowStep.feedback
  | FlowStep.visa_support => Some FlowStep.congratulations
  | FlowStep.visa_yes => Some FlowStep.visa_support
  | FlowStep.visa_no => Some FlowStep.visa_support
  | FlowStep.retention_offer => Some FlowStep.job_question
  | FlowStep.retention_survey => Some FlowStep.retention_offer
  | FlowStep.retention_reason => Some FlowStep.retention_survey
  | FlowStep.retention_price => Some FlowStep.retention_reason
  | _ => None
  end.

Definition goBack (flowState prev : FlowState) : Outcome :=
  match backMap (step flowState) with
  | Some prevStep =>
      (if FlowStep.eqb prevStep FlowStep.visa_support
       then with_hasLawyer (with_step prev prevStep) None
       else with_step prev prevStep,
       [])
  | None => (prev, [])
  end.

(** ** The controls of the rendered component (lines 341-1045)

    The header shows the back button unless [showBackButton] is false; the
    body shows the panel of the current step.  An action names the event of a
    control: the change of a yes/no radio or the click of a yes/no button
    ([Answer]), the click of the panel's forward button ([Submit], [Next]),
    of an offer button ([Accept true] takes the discount, [Accept false] is
    "No thanks") and of the back button ([Back]).  A control that the current
    render does not show, or shows with [disabled] set, fires nothing.  The
    handlers of an event belong to the render of the state it happens in, so
    [flowState] and [prev] are that same state.  The dialog is taken as open
    with the variant loaded; before that the component renders no control. *)

Inductive Action : Set :=
| Answer (b : bool)
| Submit
| Next
| Accept (accepted : bool)
| Back.

(** [!["job-question", "retention-offer"].includes(flowState.step)] *)
Definition showBackButton (flowState : FlowState) : bool :=
  match step flowState with
  | FlowStep.job_question | FlowStep.retention_offer => false
  | _ => true
  end.

Definition idle (flowState : FlowState) : Outcome := (flowState, []).

(** A button with its [disabled] attribute. *)
Definition button (disabled : bool) (onClick : FlowState -> Outcome)
    (flowState : FlowState) : Outcome :=
  if disabled then idle flowState else onClick flowState.

Definition transition (flowState : FlowState) (a : Action) : Outcome :=
  match a with
  | Back =>
      (* header, lines 349-357 *)
      if showBackButton flowState then goBack flowState flowState
      else idle flowState
  | _ =>
    match step flowState, a with
    (* lines 386-413 *)
    | FlowStep.job_question, Answer b => handleJobResponse b flowState
    (* lines 416-495 *)
    | FlowStep.survey, Submit =>
        button (negb (isSurveyValid flowState)) handleSurveySubmit flowState
    (* lines 498-532 *)
    | FlowStep.feedback, Submit =>
        button (negb (isFeedbackValid flowState)) handleFeedbackSubmit flowState
    (* lines 535-581 *)
    | FlowStep.congratulations, Answer b =>
        (with_hasLawyer flowState (Some b), [])
    | FlowStep.congratulations, Next =>
        button (match hasLawyer flowState with None => true | Some _ => false end)
          handleCongratulationsNext flowState
    (* lines 584-627 *)
    | FlowStep.visa_support, Answer b => handleVisaSupportResponse b flowState
    | FlowStep.visa_support, Submit =>
        button (match hasLawyer flowState with None => true | Some _ => false end)
          (fun prev =>
             match hasLawyer flowState with
             | Some b => handleVisaSupportResponse b prev
             | None => idle prev
             end)
          flowState
    (* lines 630-671 *)
    | (FlowStep.visa_yes | FlowStep.visa_no), Submit =>
        button (negb (Js.truthy_string (Js.trim (visaType flowState))))
          (handleVisaDetailsSubmit flowState) flowState
    (* lines 726-761 *)
    | FlowStep.retention_offer, Accept accepted =>
        handleRetentionOffer accepted flowState
    (* lines 783-866 *)
    | FlowStep.retention_survey, Accept true => handleRetentionOffer true flowState
    | FlowStep.retention_survey, Submit =>
        button (negb (isRetentionSurveyValid flowState))
          handleRetentionSurveySubmit flowState
    (* lines 869-914 *)
    | FlowStep.retention_reason, Accept true => handleRetentionOffer true flowState
    | FlowStep.retention_reason, Submit =>
        button
          (negb (Js.truthy_nullable
                   (RetentionData.cancellationReason (retentionData flowState))))
          (handleRetentionReasonSubmit flowState) flowState
    (* lines 917-965 *)
    | FlowStep.retention_price, Accept true => handleRetentionOffer true flowState
    | FlowStep.retention_price, Submit =>
        button
          (negb (Js.truthy_string
                   (Js.trim (RetentionData.maxPrice (retentionData flowState)))))
          (handleRetentionPriceSubmit flowState) flowState
    (* lines 968-1028 *)
    | (FlowStep.retention_platform | FlowStep.retention_jobs
       | FlowStep.retention_move | FlowStep.retention_other), Accept true =>
        handleRetentionOffer true flowState
    | (FlowStep.retention_platform | FlowStep.retention_jobs
       | FlowStep.retention_move | FlowStep.retention_other), Submit =>
        button (negb (isReasonFeedbackValid flowState))
          (handleReasonFeedbackSubmit flowState) flowState
    (* the panels of success, success-alt, retention-accepted and
       retention-final only close the dialog *)
    | _, _ => idle flowState
    end
  end.

(** ** Values that cross the route's boundary ([route.ts])

    What [await request.json()] yields is untyped.  A [Value] is a field of
    the parsed body after destructuring: [undefined] when the key is absent.
    A number is kept as an integer and an array or object as [VObject]: the
    route only asks whether such a value is truthy and what [typeof] says. *)

Inductive Value : Set :=
| VUndefined
| VNull
| VBoolean (b : bool)
| VNumber (n : Z)
| VString (s : string)
| VObject.

Definition Value_eq_dec (a b : Value) : {a = b} + {a <> b}.
Proof.
  decide equality;
    [apply Bool.bool_dec | apply Z.eq_dec | apply String.string_dec].
Defined.

Definition Value_eqb (a b : Value) : bool :=
  if Value_eq_dec a b then true else false.

Definition truthy (v : Value) : bool :=
  match v with
  | VUndefined | VNull => false
  | VBoolean b => b
  | VNumber n => negb (n =? 0)
  | VString s => Js.truthy_string s
  | VObject => true
  end.

Definition typeof (v : Value) : string :=
  match v with
  | VUndefined => "undefined"
  | VNull => "object"
  | VBoolean _ => "boolean"
  | VNumber _ => "number"
  | VString _ => "string"
  | VObject => "object"
  end.

Inductive Variant : Set := A | B.

(** ** The two tables ([types/database.ts])

    The identifiers and the reason reach the store as the route received
    them, so these columns hold a [Value]; they hold the strings that
    [database.ts] declares whenever the caller sent strings.  A column that
    no write has set yet is [None] ([accepted_downsell]) or [VNull]
    ([reason]).  Times are instants of a clock, in [Z]. *)

Module Cancellation.
Record t : Set := mk {
  id : Z;
  user_id : Value;
  subscription_id : Value;
  downsell_variant : Variant;
  reason : Value;
  accepted_downsell : option bool;
  created_at : Z;
}.
End Cancellation.
Abbreviation Cancellation := Cancellation.t.

Inductive Status : Set := active | pending_cancellation | cancelled.

Module Subscription.
Record t : Set := mk {
  id : Value;
  user_id : Value;
  monthly_price : Z;
  status : Status;
  created_at : Z;
  updated_at : Z;
}.
End Subscription.
Abbreviation Subscription := Subscription.t.

(** ** The world of the route

    The store, and what the route cannot choose: how the backend answers each
    storage call, the bytes of the random source, the clock.  A call is
    answered in one of three ways: it is carried out ([Served]); it resolves
    with [error] set and [data] null, nothing read or written ([Refused],
    the way the storage client reports a failure); or its promise rejects
    ([Crashed]). *)

Inductive Reply : Set := Served | Refused | Crashed.

Record World : Type := mkWorld {
  cancellations : list Cancellation;
  subscriptions : list Subscription;
  storage_calls : nat;
  backend : nat -> Reply;
  random_reads : nat;
  entropy : nat -> Z;
  clock : Z;
}.

Definition with_cancellations (w : World) (rows : list Cancellation) : World :=
  {| cancellations := rows; subscriptions := subscriptions w;
     storage_calls := storage_calls w; backend := backend w;
     random_reads := random_reads w; entropy := entropy w; clock := clock w |}.

Definition with_subscriptions (w : World) (rows : list Subscription) : World :=
  {| cancellations := cancellations w; subscriptions := rows;
     storage_calls := storage_calls w; backend := backend w;
     random_reads := random_reads w; entropy := entropy w; clock := clock w |}.

Definition with_storage_calls (w : World) (n : nat) : World :=
  {| cancellations := cancellations w; subscriptions := subscriptions w;
     storage_calls := n; backend := backend w;
     random_reads := random_reads w; entropy := entropy w; clock := clock w |}.

Definition with_random_reads (w : World) (n : nat) : World :=
  {| cancellations := cancellations w; subscriptions := subscriptions w;
     storage_calls := storage_calls w; backend := backend w;
     random_reads := n; entropy := entropy w; clock := clock w |}.

(** ** Asynchronous code: a state monad with rejection *)

Inductive Failure : Set :=
| StorageFailure      (* a storage call rejected *)
| SyntaxError         (* the request body is not JSON *)
| TypeError.          (* destructuring null *)

Inductive Completion (T : Type) : Type :=
| Resolved (value : T)
| Rejected (why : Failure).
Arguments Resolved {T} value.
Arguments Rejected {T} why.

Definition Async (T : Type) : Type := World -> Completion T * World.

Definition resolve {T : Type} (value : T) : Async T :=
  fun w => (Resolved value, w).

Definition reject {T : Type} (why : Failure) : Async T :=
  fun w => (Rejected why, w).

Definition await {T U : Type} (m : Async T) (k : T -> Async U) : Async U :=
  fun w =>
    match m w with
    | (Resolved value, w') => k value w'
    | (Rejected why, w') => (Rejected why, w')
    end.

Definition try_catch {T : Type} (body : Async T) (handler : Failure -> Async T)
  : Async T :=
  fun w =>
    match body w with
    | (Resolved value, w') => (Resolved value, w')
    | (Rejected why, w') => handler why w'
    end.

Notation "'let*' x := m 'in' k" := (await m (fun x => k))
  (at level 10, x pattern, m at level 100, k at level 200).

(** ** The storage client

    The queries are the ones that [route.ts] builds on [supabase], over the
    tables as lists of rows.  Every query resolves to [{ data, error }]; the
    route reads [data] from the lookup and nothing from the other three. *)

Record Result (T : Type) : Type := mkResult {
  data : option T;
  error : option string;
}.
Arguments mkResult {T} data error.
Arguments data {T} r.
Arguments error {T} r.

(** One storage call: ask the backend, count the call. *)
Definition call {T : Type} (served : World -> Result T * World) : Async (Result T) :=
  fun w =>
    let w' := with_storage_calls w (S (storage_calls w)) in
    match backend w (storage_calls w) with
    | Served => let (r, w'') := served w' in (Resolved r, w'')
    | Refused => (Resolved (mkResult None (Some "storage error")), w')
    | Crashed => (Rejected StorageFailure, w')
    end.

(** [.eq("user_id", userId).eq("subscription_id", subscriptionId)] *)
Definition of_pair (userId subscriptionId : Value) (row : Cancellation) : bool :=
  Value_eqb (Cancellation.user_id row) userId
  && Value_eqb (Cancellation.subscription_id row) subscriptionId.

(** Lines 8-13, [.select("downsell_variant") ... .single()]: the one
    matching row, and an error when no row or several rows match. *)
Definition select_single (userId subscriptionId : Value) : Async (Result Variant) :=
  call (fun w =>
    match List.filter (of_pair userId subscriptionId) (cancellations w) with
    | [row] => (mkResult (Some (Cancellation.downsell_variant row)) None, w)
    | _ => (mkResult None (Some "multiple (or no) rows returned"), w)
    end).

(** Lines 24-28, [.insert({ user_id, subscription_id, downsell_variant })]:
    a new row at the end of the table; the database fills the other
    columns. *)
Definition insert (userId subscriptionId : Value) (variant : Variant)
  : Async (Result unit) :=
  call (fun w =>
    (mkResult None None,
     with_cancellations w
       (cancellations w ++
        [ {| Cancellation.id := Z.of_nat (List.length (cancellations w));
             Cancellation.user_id := userId;
             Cancellation.subscription_id := subscriptionId;
             Cancellation.downsell_variant := variant;
             Cancellation.reason := VNull;
             Cancellation.accepted_downsell := None;
             Cancellation.created_at := clock w |} ]))).

(** Lines 54-58, [.update({ accepted_downsell, reason })] on the rows of the
    pair: a key whose value is [undefined] is not sent, and its column keeps
    what it held. *)
Definition set_outcome (accepted : bool) (why : Value) (row : Cancellation)
  : Cancellation :=
  {| Cancellation.id := Cancellation.id row;
     Cancellation.user_id := Cancellation.user_id row;
     Cancellation.subscription_id := Cancellation.subscription_id row;
     Cancellation.downsell_variant := Cancellation.downsell_variant row;
     Cancellation.reason :=
       match why with
       | VUndefined => Cancellation.reason row
       | sent => sent
       end;
     Cancellation.accepted_downsell := Some accepted;
     Cancellation.created_at := Cancellation.created_at row |}.

Definition update_cancellations (accepted : bool) (why : Value)
    (userId subscriptionId : Value) : Async (Result unit) :=
  call (fun w =>
    (mkResult None None,
     with_cancellations w
       (List.map
          (fun row =>
             if of_pair userId subscriptionId row
             then set_outcome accepted why row else row)
          (cancellations w)))).

(** Lines 60-65, [.update({ status: "pending_cancellation",
    updated_at: new Date() }).eq("id", subscription_id)] *)
Definition set_pending (now : Z) (row : Subscription) : Subscription :=
  {| Subscription.id := Subscription.id row;
     Subscription.user_id := Subscription.user_id row;
     Subscription.monthly_price := Subscription.monthly_price row;
     Subscription.status := pending_cancellation;
     Subscription.created_at := Subscription.created_at row;
     Subscription.updated_at := now |}.

Definition update_subscriptions (subscriptionId : Value) : Async (Result unit) :=
  call (fun w =>
    (mkResult None None,
     with_subscriptions w
       (List.map
          (fun row =>
             if Value_eqb (Subscription.id row) subscriptionId
             then set_pending (clock w) row else row)
          (subscriptions w)))).

(** [crypto.randomBytes(1)] followed by [buffer.readUInt8(0)] *)
Definition randomByte : Async Z :=
  fun w =>
    (Resolved (entropy w (random_reads w) mod 256),
     with_random_reads w (S (random_reads w))).

(** ** [getOrAssignVariant] ([route.ts], lines 7-31) *)

Definition getOrAssignVariant (userId subscriptionId : Value) : Async Variant :=
  let* found := select_single userId subscriptionId in
  match data found with
  | Some stored => resolve stored
  | None =>
      let* randomValue := randomByte in
      let variant := if randomValue mod 2 =? 0 then A else B in
      let* _ := insert userId subscriptionId variant in
      resolve variant
  end.

(** ** [POST] ([route.ts], lines 33-72) *)

Module Body.
Record t : Set := mk {
  user_id : Value;
  subscription_id : Value;
  get_variant : Value;
  accepted_downsell : Value;
  reason : Value;
}.
End Body.
Abbreviation Body := Body.t.

(** The request as [request.json()] and the destructuring see it: a body
    that is not JSON, the JSON [null], or any other JSON value with the five
    fields read from it. *)
Inductive Request : Set :=
| NotJson
| JsonNull
| Json (body : Body).

Definition request_json (request : Request) : Async Body :=
  match request with
  | NotJson => reject SyntaxError
  | JsonNull => reject TypeError
  | Json body => resolve body
  end.

Record Response : Set := mkResponse {
  http_status : Z;
  success : bool;
  message : option string;
  variant : option Variant;
}.

Definition POST (request : Request) : Async Response :=
  try_catch
    (let* body := request_json request in
     (* !user_id || !subscription_id *)
     if negb (truthy (Body.user_id body)) || negb (truthy (Body.subscription_id body))
     then resolve (mkResponse 400 false (Some "Missing user_id or subscription_id") None)
     else if truthy (Body.get_variant body)
     then
       let* assigned :=
         getOrAssignVariant (Body.user_id body) (Body.subscription_id body) in
       resolve (mkResponse 200 true None (Some assigned))
     else
       (* typeof accepted_downsell !== "boolean" *)
       match Body.accepted_downsell body with
       | VBoolean accepted =>
           (* reason && typeof reason !== "string" *)
           if truthy (Body.reason body)
              && negb (String.eqb (typeof (Body.reason body)) "string")
           then resolve (mkResponse 400 false (Some "reason must be string") None)
           else
             let* _ :=
               update_cancellations accepted (Body.reason body)
                 (Body.user_id body) (Body.subscription_id body) in
             let* _ :=
               if negb accepted
               then update_subscriptions (Body.subscription_id body)
               else resolve (mkResult None None) in
             resolve (mkResponse 200 true None None)
       | _ =>
           resolve (mkResponse 400 false (Some "accepted_downsell must be boolean") None)
       end)
    (fun _ => resolve (mkResponse 500 false (Some "Internal server error") None)).

(** ** The requests the hook sends ([usecancellationflow.tsx]) *)

Definition variant_request (userId subscriptionId : string) : Request :=
  Json {| Body.user_id := VString userId;
          Body.subscription_id := VString subscriptionId;
          Body.get_variant := VBoolean true;
          Body.accepted_downsell := VUndefined;
          Body.reason := VUndefined |}.

Definition submission_request (userId subscriptionId : string) (sent : Submission)
  : Request :=
  Json {| Body.user_id := VString userId;
          Body.subscription_id := VString subscriptionId;
          Body.get_variant := VUndefined;
          Body.accepted_downsell := VBoolean (accepted_downsell sent);
          Body.reason :=
            match reason sent with
            | Some why => VString why
            | None => VUndefined
            end |}.

(** ** Notions used to state the properties *)

(** The reason routing table as the specification words it: the five listed
    reasons, and the final step for any other value. *)
Definition spec_route (why : string) : FlowStep :=
  if String.eqb why "Too expensive" then FlowStep.retention_price
  else if String.eqb why "Platform not helpful" then FlowStep.retention_platform
  else if String.eqb why "Not enough relevant jobs" then FlowStep.retention_jobs
  else if String.eqb why "Decided not to move" then FlowStep.retention_move
  else if String.eqb why "Other" then FlowStep.retention_other
  else FlowStep.retention_final.

(** The property names that an object literal inherits from
    [Object.prototype].  For such a name [stepMap[reason]] is the inherited
    property and not a step; [stepMap] and [nextStep] do not describe the
    source there. *)
Definition inherited_names : list string :=
  [ "constructor"; "hasOwnProperty"; "isPrototypeOf"; "propertyIsEnumerable";
    "toLocaleString"; "toString"; "valueOf"; "__proto__";
    "__defineGetter__"; "__defineSetter__"; "__lookupGetter__";
    "__lookupSetter__" ].

(** The steps that show the discount button named by the specification. *)
Definition offer_steps : list FlowStep :=
  [ FlowStep.retention_offer; FlowStep.retention_survey;
    FlowStep.retention_reason; FlowStep.retention_platform;
    FlowStep.retention_jobs; FlowStep.retention_move;
    FlowStep.retention_other ].

Definition with_feedback (prev : FlowState) (v : string) : FlowState :=
  {| step := step prev; hasJob := hasJob prev; surveyData := surveyData prev;
     feedback := v; hasLawyer := hasLawyer prev;
     visaType := visaType prev; completedSteps := completedSteps prev;
     retentionData := retentionData prev |}.

Definition with_visaType (prev : FlowState) (v : string) : FlowState :=
  {| step := step prev; hasJob := hasJob prev; surveyData := surveyData prev;
     feedback := feedback prev; hasLawyer := hasLawyer prev;
     visaType := v; completedSteps := completedSteps prev;
     retentionData := retentionData prev |}.

Definition with_cancellationReason (prev : FlowState) (v : option string)
  : FlowState :=
  {| step := step prev; hasJob := hasJob prev; surveyData := surveyData prev;
     feedback := feedback prev; hasLawyer := hasLawyer prev;
     visaType := visaType prev; completedSteps := completedSteps prev;
     retentionData :=
       {| RetentionData.rolesApplied :=
            RetentionData.rolesApplied (retentionData prev);
          RetentionData.companiesEmailed :=
            RetentionData.companiesEmailed (retentionData prev);
          RetentionData.companiesInterviewed :=
            RetentionData.companiesInterviewed (retentionData prev);
          RetentionData.cancellationReason := v;
          RetentionData.maxPrice := RetentionData.maxPrice (retentionData prev);
          RetentionData.reasonFeedback :=
            RetentionData.reasonFeedback (retentionData prev) |} |}.

(** Sample states: the flow at a given step with one field filled in. *)
Definition short_feedback_state : FlowState :=
  with_feedback (with_step initialState FlowStep.feedback) "short".

Definition reason_state (v : option string) : FlowState :=
  with_cancellationReason (with_step initialState FlowStep.retention_reason) v.

Definition visa_state : FlowState :=
  with_visaType
    (with_hasLawyer (with_step initialState FlowStep.visa_yes) (Some true))
    "H-1B".

(** How the backend answers the lookup and the insert of a call of
    [getOrAssignVariant] that starts in [w]. *)
Definition lookup_reply (w : World) : Reply := backend w (storage_calls w).
Definition insert_reply (w : World) : Reply := backend w (S (storage_calls w)).

(** The variant that the next random byte selects. *)
Definition drawn (w : World) : Variant :=
  if (entropy w (random_reads w) mod 256) mod 2 =? 0 then A else B.

(** The variant on record for a pair: that of its one row. *)
Definition stored (userId subscriptionId : Value) (w : World) : option Variant :=
  match List.filter (of_pair userId subscriptionId) (cancellations w) with
  | [row] => Some (Cancellation.downsell_variant row)
  | _ => None
  end.

(** The row that a served insert adds. *)
Definition fresh_row (userId subscriptionId : Value) (v : Variant) (w : World)
  : Cancellation :=
  {| Cancellation.id := Z.of_nat (List.length (cancellations w));
     Cancellation.user_id := userId;
     Cancellation.subscription_id := subscriptionId;
     Cancellation.downsell_variant := v;
     Cancellation.reason := VNull;
     Cancellation.accepted_downsell := None;
     Cancellation.created_at := clock w |}.

(** A persistence operation of the call fails: the lookup is not served, or
    it finds no record and the insert is not served. *)
Definition persistence_fails (userId subscriptionId : Value) (w : World) : Prop :=
  lookup_reply w <> Served
  \/ (stored userId subscriptionId w = None /\ insert_reply w <> Served).

(** [n] calls of [getOrAssignVariant] one after the other. *)
Fixpoint sequential_calls (n : nat) (userId subscriptionId : Value) (w : World)
  : list (Completion Variant) * World :=
  match n with
  | O => ([], w)
  | S k =>
      let (first, w') := getOrAssignVariant userId subscriptionId w in
      let (rest, w'') := sequential_calls k userId subscriptionId w' in
      (first :: rest, w'')
  end.

(** Modelled from the spec: the schema of the cancellations table is not
    among the sources; the specification declares its records unique on
    [(user_id, subscription_id)].  No two rows carry the same pair. *)
Definition identity (row : Cancellation) : Value * Value :=
  (Cancellation.user_id row, Cancellation.subscription_id row).

Definition unique_pairs (rows : list Cancellation) : Prop :=
  List.NoDup (List.map identity rows).

(** Sample worlds. *)
Definition always_served : nat -> Reply := fun _ => Served.

Definition insert_refused : nat -> Reply :=
  fun k => match k with 1%nat => Refused | _ => Served end.

Definition world_of (rows : list Cancellation) (subs : list Subscription)
    (answers : nat -> Reply) : World :=
  {| cancellations := rows; subscriptions := subs;
     storage_calls := 0; backend := answers;
     random_reads := 0; entropy := fun _ => 0; clock := 1000 |}.

Definition sample_row : Cancellation :=
  {| Cancellation.id := 0;
     Cancellation.user_id := VString "user-1";
     Cancellation.subscription_id := VString "sub-1";
     Cancellation.downsell_variant := B;
     Cancellation.reason := VNull;
     Cancellation.accepted_downsell := None;
     Cancellation.created_at := 0 |}.

Definition sample_subscription : Subscription :=
  {| Subscription.id := VString "sub-1";
     Subscription.user_id := VString "user-1";
     Subscription.monthly_price := 25;
     Subscription.status := active;
     Subscription.created_at := 0;
     Subscription.updated_at := 0 |}.

Definition sample_world : World :=
  world_of [sample_row] [sample_subscription] always_served.

(** The world after one storage call, and after a lookup, a random byte
    and an insert. *)
Definition counted (w : World) : World :=
  with_storage_calls w (S (storage_calls w)).

Definition drawn_and_counted (w : World) : World :=
  with_storage_calls (with_random_reads w (S (random_reads w)))
    (S (S (storage_calls w))).

(** The conditions under which [POST] answers 400, read off a parsed body. *)
Definition bad_request (body : Body) : bool :=
  negb (truthy (Body.user_id body))
  || negb (truthy (Body.subscription_id body))
  || (negb (truthy (Body.get_variant body))
      && (match Body.accepted_downsell body with
          | VBoolean _ => false
          | _ => true
          end
          || (truthy (Body.reason body)
              && negb (String.eqb (typeof (Body.reason body)) "string")))).

(** A body with other submission fields. *)
Definition with_submission_fields (body : Body) (accepted why : Value) : Body :=
  {| Body.user_id := Body.user_id body;
     Body.subscription_id := Body.subscription_id body;
     Body.get_variant := Body.get_variant body;
     Body.accepted_downsell := accepted;
     Body.reason := why |}.

(** What a served update writes into the two tables. *)
Definition recorded (accepted : bool) (why userId subscriptionId : Value)
    (rows : list Cancellation) : list Cancellation :=
  List.map
    (fun row =>
       if of_pair userId subscriptionId row
       then set_outcome accepted why row else row)
    rows.

Definition marked_pending (now : Z) (subscriptionId : Value)
    (rows : list Subscription) : list Subscription :=
  List.map
    (fun row =>
       if Value_eqb (Subscription.id row) subscriptionId
       then set_pending now row else row)
    rows.

(** A submission whose reason is present, is not a string, and is falsy. *)
Definition falsy_reason_request : Request :=
  Json {| Body.user_id := VString "user-1";
          Body.subscription_id := VString "sub-1";
          Body.get_variant := VUndefined;
          Body.accepted_downsell := VBoolean true;
          Body.reason := VBoolean false |}.

Definition sample_submission (accepted : bool) : Body :=
  {| Body.user_id := VString "user-1";
     Body.subscription_id := VString "sub-1";
     Body.get_variant := VUndefined;
     Body.accepted_downsell := VBoolean accepted;
     Body.reason := VString "Completed visa support flow" |}.

Definition sample_variant_body : Body :=
  {| Body.user_id := VString "user-1";
     Body.subscription_id := VString "sub-1";
     Body.get_variant := VBoolean true;
     Body.accepted_downsell := VBoolean false;
     Body.reason := VNumber 7 |}.

(** ** The answer and text controls (lines 246-283 and the panels)

    The option buttons and radios of a panel are rendered from the option
    lists, so an answer reaches the state only if its list offers it.  A text
    control hands over the value of its element; any string is taken as such
    a value. *)

Definition ROLE_OPTIONS : list string := [ "0"; "1-5"; "6-20"; "20+" ].
Definition INTERVIEW_OPTIONS : list string := [ "0"; "1-2"; "3-5"; "5+" ].

Definition with_surveyData (prev : FlowState) (v : SurveyData) : FlowState :=
  {| step := step prev; hasJob := hasJob prev; surveyData := v;
     feedback := feedback prev; hasLawyer := hasLawyer prev;
     visaType := visaType prev; completedSteps := completedSteps prev;
     retentionData := retentionData prev |}.

Definition with_retentionData (prev : FlowState) (v : RetentionData) : FlowState :=
  {| step := step prev; hasJob := hasJob prev; surveyData := surveyData prev;
     feedback := feedback prev; hasLawyer := hasLawyer prev;
     visaType := visaType prev; completedSteps := completedSteps prev;
     retentionData := v |}.

(** A call [updateSurveyData(field, value)], as the survey panel makes it. *)
Inductive SurveyUpdate : Set :=
| Survey_foundJobWithMM (value : bool)
| Survey_rolesApplied (value : string)
| Survey_companiesEmailed (value : string)
| Survey_companiesInterviewed (value : string).

Definition updateSurveyData (u : SurveyUpdate) (prev : FlowState) : FlowState :=
  let old := surveyData prev in
  with_surveyData prev
    match u with
    | Survey_foundJobWithMM value =>
        {| SurveyData.foundJobWithMM := Some value;
           SurveyData.rolesApplied := SurveyData.rolesApplied old;
           SurveyData.companiesEmailed := SurveyData.companiesEmailed old;
           SurveyData.companiesInterviewed := SurveyData.companiesInterviewed old |}
    | Survey_rolesApplied value =>
        {| SurveyData.foundJobWithMM := SurveyData.foundJobWithMM old;
           SurveyData.rolesApplied := Some value;
           SurveyData.companiesEmailed := SurveyData.companiesEmailed old;
           SurveyData.companiesInterviewed := SurveyData.companiesInterviewed old |}
    | Survey_companiesEmailed value =>
        {| SurveyData.foundJobWithMM := SurveyData.foundJobWithMM old;
           SurveyData.rolesApplied := SurveyData.rolesApplied old;
           SurveyData.companiesEmailed := Some value;
           SurveyData.companiesInterviewed := SurveyData.companiesInterviewed old |}
    | Survey_companiesInterviewed value =>
        {| SurveyData.foundJobWithMM := SurveyData.foundJobWithMM old;
           SurveyData.rolesApplied := SurveyData.rolesApplied old;
           SurveyData.companiesEmailed := SurveyData.companiesEmailed old;
           SurveyData.companiesInterviewed := Some value |}
    end.

(** A call [updateRetentionData(field, value)], as the retention panels make
    it. *)
Inductive RetentionUpdate : Set :=
| Retention_rolesApplied (value : string)
| Retention_companiesEmailed (value : string)
| Retention_companiesInterviewed (value : string)
| Retention_cancellationReason (value : string).

Definition updateRetentionData (u : RetentionUpdate) (prev : FlowState) : FlowState :=
  let old := retentionData prev in
  with_retentionData prev
    {| RetentionData.rolesApplied :=
         match u with
         | Retention_rolesApplied value => Some value
         | _ => RetentionData.rolesApplied old
         end;
       RetentionData.companiesEmailed :=
         match u with
         | Retention_companiesEmailed value => Some value
         | _ => RetentionData.companiesEmailed old
         end;
       RetentionData.companiesInterviewed :=
         match u with
         | Retention_companiesInterviewed value => Some value
         | _ => RetentionData.companiesInterviewed old
         end;
       RetentionData.cancellationReason :=
         match u with
         | Retention_cancellationReason value => Some value
         | _ => RetentionData.cancellationReason old
         end;
       RetentionData.maxPrice := RetentionData.maxPrice old;
       RetentionData.reasonFeedback := RetentionData.reasonFeedback old |}.

Definition handleFeedbackChange (value : string) (prev : FlowState) : FlowState :=
  with_feedback prev value.

Definition handleVisaTypeChange (value : string) (prev : FlowState) : FlowState :=
  with_visaType prev value.

Definition handleReasonFeedbackChange (value : string) (prev : FlowState)
  : FlowState :=
  let old := retentionData prev in
  with_retentionData prev
    {| RetentionData.rolesApplied := RetentionData.rolesApplied old;
       RetentionData.companiesEmailed := RetentionData.companiesEmailed old;
       RetentionData.companiesInterviewed := RetentionData.companiesInterviewed old;
       RetentionData.cancellationReason := RetentionData.cancellationReason old;
       RetentionData.maxPrice := RetentionData.maxPrice old;
       RetentionData.reasonFeedback := value |}.

Definition handleMaxPriceChange (value : string) (prev : FlowState) : FlowState :=
  let old := retentionData prev in
  with_retentionData prev
    {| RetentionData.rolesApplied := RetentionData.rolesApplied old;
       RetentionData.companiesEmailed := RetentionData.companiesEmailed old;
       RetentionData.companiesInterviewed := RetentionData.companiesInterviewed old;
       RetentionData.cancellationReason := RetentionData.cancellationReason old;
       RetentionData.maxPrice := value;
       RetentionData.reasonFeedback := RetentionData.reasonFeedback old |}.

Inductive Input : Set :=
| SurveyAnswer (u : SurveyUpdate)
| RetentionAnswer (u : RetentionUpdate)
| FeedbackText (value : string)
| VisaTypeText (value : string)
| MaxPriceText (value : string)
| ReasonFeedbackText (value : string).

Definition offered (options : list string) (value : string) : bool :=
  existsb (String.eqb value) options.

(** The buttons of the survey panel (lines 424-483). *)
Definition survey_offers (u : SurveyUpdate) : bool :=
  match u with
  | Survey_foundJobWithMM _ => true
  | Survey_rolesApplied value => offered ROLE_OPTIONS value
  | Survey_companiesEmailed value => offered ROLE_OPTIONS value
  | Survey_companiesInterviewed value => offered INTERVIEW_OPTIONS value
  end.

(** The buttons of the retention-survey panel (lines 794-842) and the radios
    of the retention-reason panel (lines 880-891). *)
Definition retention_offers (st : FlowStep) (u : RetentionUpdate) : bool :=
  match st, u with
  | FlowStep.retention_survey, Retention_rolesApplied value =>
      offered ROLE_OPTIONS value
  | FlowStep.retention_survey, Retention_companiesEmailed value =>
      offered ROLE_OPTIONS value
  | FlowStep.retention_survey, Retention_companiesInterviewed value =>
      offered INTERVIEW_OPTIONS value
  | FlowStep.retention_reason, Retention_cancellationReason value =>
      offered CANCELLATION_REASONS value
  | _, _ => false
  end.

(** The state after an answer or text control of the current panel fired;
    a control of another panel is not there to fire. *)
Definition fill (flowState : FlowState) (i : Input) : FlowState :=
  match step flowState, i with
  | FlowStep.survey, SurveyAnswer u =>
      if survey_offers u then updateSurveyData u flowState else flowState
  | (FlowStep.retention_survey | FlowStep.retention_reason), RetentionAnswer u =>
      if retention_offers (step flowState) u
      then updateRetentionData u flowState else flowState
  | FlowStep.feedback, FeedbackText value => handleFeedbackChange value flowState
  | (FlowStep.visa_yes | FlowStep.visa_no), VisaTypeText value =>
      handleVisaTypeChange value flowState
  | FlowStep.retention_price, MaxPriceText value =>
      handleMaxPriceChange value flowState
  | (FlowStep.retention_platform | FlowStep.retention_jobs
     | FlowStep.retention_move | FlowStep.retention_other),
    ReasonFeedbackText value =>
      handleReasonFeedbackChange value flowState
  | _, _ => flowState
  end.

(** ** Sessions: the events of one opened dialog, in order *)

Inductive Event : Set :=
| Act (a : Action)
| Fill (i : Input).

Definition react (flowState : FlowState) (e : Event) : Outcome :=
  match e with
  | Act a => transition flowState a
  | Fill i => (fill flowState i, [])
  end.

(** The state after the events and the submissions dispatched on the way;
    every event meets the render of the state before it. *)
Fixpoint run (flowState : FlowState) (events : list Event) : Outcome :=
  match events with
  | [] => (flowState, [])
  | e :: rest =>
      let (next, sent) := react flowState e in
      let (final, later) := run next rest in
      (final, (sent ++ later)%list)
  end.

(** The steps whose panel only closes the dialog. *)
Definition terminal (st : FlowStep) : bool :=
  match st with
  | FlowStep.success | FlowStep.success_alt
  | FlowStep.retention_accepted | FlowStep.retention_final => true
  | _ => false
  end.

(** The reason that leads to a step of the retention branch. *)
Definition reason_of_step (st : FlowStep) : option string :=
  match st with
  | FlowStep.retention_price => Some "Too expensive"
  | FlowStep.retention_platform => Some "Platform not helpful"
  | FlowStep.retention_jobs => Some "Not enough relevant jobs"
  | FlowStep.retention_move => Some "Decided not to move"
  | FlowStep.retention_other => Some "Other"
  | _ => None
  end.

(** What the answers collected so far satisfy at each step. *)
Definition job_found (s : FlowState) : Prop := hasJob s = Some true.
Definition still_looking (s : FlowState) : Prop := hasJob s = Some false.

Definition reason_offered (s : FlowState) : Prop :=
  match RetentionData.cancellationReason (retentionData s) with
  | Some why => In why CANCELLATION_REASONS
  | None => True
  end.

Definition consistent (s : FlowState) : Prop :=
  reason_offered s
  /\ 0 <= completedSteps s <= 3
  /\ match step s with
     | FlowStep.job_question => True
     | FlowStep.survey => job_found s
     | FlowStep.feedback => job_found s /\ isSurveyValid s = true
     | FlowStep.congratulations | FlowStep.visa_support =>
         job_found s /\ isSurveyValid s = true /\ isFeedbackValid s = true
     | FlowStep.visa_yes =>
         job_found s /\ isSurveyValid s = true /\ isFeedbackValid s = true
         /\ hasLawyer s = Some true
     | FlowStep.visa_no =>
         job_found s /\ isSurveyValid s = true /\ isFeedbackValid s = true
         /\ hasLawyer s = Some false
     | FlowStep.success =>
         job_found s /\ isSurveyValid s = true /\ isFeedbackValid s = true
         /\ hasLawyer s = Some true /\ Js.trim (visaType s) <> ""
     | FlowStep.success_alt =>
         job_found s /\ isSurveyValid s = true /\ isFeedbackValid s = true
         /\ hasLawyer s = Some false /\ Js.trim (visaType s) <> ""
     | FlowStep.retention_offer | FlowStep.retention_survey
     | FlowStep.retention_accepted => still_looking s
     | FlowStep.retention_reason =>
         still_looking s /\ isRetentionSurveyValid s = true
     | FlowStep.retention_price | FlowStep.retention_platform
     | FlowStep.retention_jobs | FlowStep.retention_move
     | FlowStep.retention_other =>
         still_looking s /\ isRetentionSurveyValid s = true
         /\ RetentionData.cancellationReason (retentionData s)
            = reason_of_step (step s)
     | FlowStep.retention_final =>
         still_looking s /\ isRetentionSurveyValid s = true
         /\ exists why,
              RetentionData.cancellationReason (retentionData s) = Some why
              /\ In why CANCELLATION_REASONS
     end.

(** The steps after "Yes, I've found a job" and after "Not yet". *)
Definition job_branch (st : FlowStep) : bool :=
  match st with
  | FlowStep.survey | FlowStep.feedback | FlowStep.congratulations
  | FlowStep.visa_support | FlowStep.visa_yes | FlowStep.visa_no
  | FlowStep.success | FlowStep.success_alt => true
  | _ => false
  end.

Definition retention_branch (st : FlowStep) : bool :=
  match st with
  | FlowStep.retention_offer | FlowStep.retention_accepted
  | FlowStep.retention_survey | FlowStep.retention_reason
  | FlowStep.retention_price | FlowStep.retention_platform
  | FlowStep.retention_jobs | FlowStep.retention_move
  | FlowStep.retention_other | FlowStep.retention_final => true
  | _ => false
  end.

(** The four steps that ask for a text about the chosen reason. *)
Definition reason_feedback_step (st : FlowStep) : bool :=
  match st with
  | FlowStep.retention_platform | FlowStep.retention_jobs
  | FlowStep.retention_move | FlowStep.retention_other => true
  | _ => false
  end.

(** A session that ends on the success panel. *)
Definition job_found_session : list Event :=
  [ Act (Answer true);
    Fill (SurveyAnswer (Survey_foundJobWithMM true));
    Fill (SurveyAnswer (Survey_rolesApplied "0"));
    Fill (SurveyAnswer (Survey_companiesEmailed "1-5"));
    Fill (SurveyAnswer (Survey_companiesInterviewed "1-2"));
    Act Submit;
    Fill (FeedbackText "More listings outside the capital.");
    Act Submit;
    Act (Answer true);
    Act Next;
    Act Submit;
    Fill (VisaTypeText "H-1B");
    Act Submit ].

(** Sessions of the retention branch: up to the reason panel, then to the
    end through the panel of "Platform not helpful". *)
Definition reason_session : list Event :=
  [ Act (Answer false);
    Act (Accept false);
    Fill (RetentionAnswer (Retention_rolesApplied "6-20"));
    Fill (RetentionAnswer (Retention_companiesEmailed "0"));
    Fill (RetentionAnswer (Retention_companiesInterviewed "0"));
    Act Submit;
    Fill (RetentionAnswer (Retention_cancellationReason "Platform not helpful")) ].

Definition platform_session : list Event :=
  (reason_session ++
   [ Act Submit;
     Fill (ReasonFeedbackText "The search filters never matched my field.") ])%list.

(** ** The hook ([usecancellationflow.tsx])

    What [fetch] gives the hook: a rejection, or a response with its status
    and the fields of its JSON body. *)
Inductive Fetched : Set :=
| NetworkDown
| Received (response : Response).

(** [res.ok] *)
Definition ok (response : Response) : bool :=
  (200 <=? http_status response) && (http_status response <=? 299).

Module Hook.
Record t : Set := mk {
  variant : option Variant;
  loading : bool;
  error : option string;
}.
End Hook.

(** [useState(null)], [useState(true)], [useState(null)] *)
Definition hook_initial : Hook.t :=
  {| Hook.variant := None; Hook.loading := true; Hook.error := None |}.

(** [data.message || "Failed to fetch variant"] *)
Definition message_or_default (text : option string) : string :=
  match text with
  | Some m => if Js.truthy_string m then m else "Failed to fetch variant"
  | None => "Failed to fetch variant"
  end.

(** The state that [fetchVariant] (lines 15-45) leaves after the first
    render: [setLoading(true)], [setError(null)], then the [try], its
    [catch] and its [finally]. *)
Definition fetchVariant (fetched : Fetched) : Hook.t :=
  match fetched with
  | NetworkDown =>
      {| Hook.variant := None; Hook.loading := false;
         Hook.error := Some "Network error" |}
  | Received response =>
      if negb (ok response)
      then {| Hook.variant := None; Hook.loading := false;
              Hook.error := Some "Network error" |}
      else if success response
      then {| Hook.variant := variant response; Hook.loading := false;
              Hook.error := None |}
      else {| Hook.variant := None; Hook.loading := false;
              Hook.error := Some (message_or_default (message response)) |}
  end.

(** A run of [fetchVariant] from the state [prev] that an earlier run left:
    the effect runs again when an identifier changes (line 48).
    [setLoading(true)] and [setError(null)] come first; no run resets the
    variant, so a run that fails keeps the one of [prev]. *)
Definition refetch (prev : Hook.t) (fetched : Fetched) : Hook.t :=
  let failed (text : string) :=
    {| Hook.variant := Hook.variant prev; Hook.loading := false;
       Hook.error := Some text |} in
  match fetched with
  | NetworkDown => failed "Network error"
  | Received response =>
      if negb (ok response) then failed "Network error"
      else if success response
      then {| Hook.variant := variant response; Hook.loading := false;
              Hook.error := None |}
      else failed (message_or_default (message response))
  end.

(** The route behind [fetch("/api/cancellation")]: the response is the one
    [POST] resolves to; a handler that rejected would be answered for by the
    framework with status 500. *)
Definition route_fetch (request : Request) (w : World) : Fetched * World :=
  match POST request w with
  | (Resolved response, w') => (Received response, w')
  | (Rejected _, w') => (Received (mkResponse 500 false None None), w')
  end.

(** The effect of [useCancellationFlow] on mount (lines 12-48). *)
Definition useCancellationFlow (userId subscriptionId : string) (w : World)
  : Hook.t * World :=
  if negb (Js.truthy_string userId) || negb (Js.truthy_string subscriptionId)
  then (hook_initial, w)
  else
    let (fetched, w') := route_fetch (variant_request userId subscriptionId) w in
    (fetchVariant fetched, w').

(** What the component returns before the flow (lines 311-338). *)
Inductive View : Set :=
| LoadingView
| ErrorView (text : string)
| NoView
| FlowView (v : Variant).

Definition render (hook : Hook.t) (isOpen : bool) : View :=
  let flow :=
    match Hook.variant hook with
    | Some v => if isOpen then FlowView v else NoView
    | None => NoView
    end in
  if Hook.loading hook then LoadingView
  else
    match Hook.error hook with
    | Some text => if Js.truthy_string text then ErrorView text else flow
    | None => flow
    end.

(** The submissions of a flow, sent one after the other by the hook's
    [submitCancellation] (lines 51-67); the responses are not looked at. *)
Fixpoint deliver (userId subscriptionId : string) (sent : list Submission)
    (w : World) : World :=
  match sent with
  | [] => w
  | first :: rest =>
      deliver userId subscriptionId rest
        (snd (route_fetch (submission_request userId subscriptionId first) w))
  end.

(** The columns of a cancellation record that only an insert writes. *)
Definition assignment (row : Cancellation) : Z * Value * Value * Variant * Z :=
  (Cancellation.id row, Cancellation.user_id row,
   Cancellation.subscription_id row, Cancellation.downsell_variant row,
   Cancellation.created_at row).

(** A world whose random source gives the byte [b]. *)
Definition world_with_byte (b : Z) : World :=
  {| cancellations := []; subscriptions := [];
     storage_calls := 0; backend := always_served;
     random_reads := 0; entropy := fun _ => b; clock := 0 |}.

(** * Properties of the flow *)

Lemma truthy_string_true (s : string) :
  Js.truthy_string s = true <-> s <> "".
Proof.
  unfold Js.truthy_string.
  destruct (String.eqb_spec s ""); simpl; split; congruence.
Qed.

(** The lookup in [stepMap] together with its fallback is the routing table
    of the specification. *)
Lemma nextStep_spec_route (why : string) :
  why <> "" -> nextStep (Some why) = spec_route why.
Proof.
  intros Hset. unfold nextStep, spec_route.
  apply truthy_string_true in Hset. rewrite Hset.
  unfold stepMap. simpl list_to_map.
  repeat
    (match goal with
     | |- context [String.eqb why ?k] =>
         destruct (String.eqb_spec why k) as [-> | ?]
     end;
     [ reflexivity
     | rewrite lookup_insert_ne by congruence ]).
  rewrite lookup_empty. reflexivity.
Qed.

(** Each reason that the panel offers has a step of its own. *)
Lemma offered_reasons_are_routed :
  List.map (fun why => nextStep (Some why)) CANCELLATION_REASONS =
  [ FlowStep.retention_price; FlowStep.retention_platform;
    FlowStep.retention_jobs; FlowStep.retention_move;
    FlowStep.retention_other ].
Proof. vm_compute. reflexivity. Qed.

Lemma nextStep_unset (why : option string) :
  Js.truthy_nullable why = false -> nextStep why = FlowStep.retention_final.
Proof.
  destruct why as [r |]; simpl; [| reflexivity].
  intros ->. reflexivity.
Qed.

(** C1. Back-navigation follows the static map: the back action leads from
    survey to job-question, from feedback to survey, from congratulations to
    feedback, from visa-support to congratulations, from visa-yes and visa-no
    to visa-support (clearing [hasLawyer]), from retention-survey to
    retention-offer, from retention-reason to retention-survey and from
    retention-price to retention-reason; at job-question, at retention-offer
    and at every other step it leaves the state unchanged.  Nothing else of
    the state changes and no submission is dispatched. *)
Theorem back_follows_static_map (flowState : FlowState) :
  let after := fst (transition flowState Back) in
  snd (transition flowState Back) = []
  /\ step after =
     match step flowState with
     | FlowStep.survey => FlowStep.job_question
     | FlowStep.feedback => FlowStep.survey
     | FlowStep.congratulations => FlowStep.feedback
     | FlowStep.visa_support => FlowStep.congratulations
     | FlowStep.visa_yes | FlowStep.visa_no => FlowStep.visa_support
     | FlowStep.retention_survey => FlowStep.retention_offer
     | FlowStep.retention_reason => FlowStep.retention_survey
     | FlowStep.retention_price => FlowStep.retention_reason
     | (FlowStep.job_question | FlowStep.retention_offer
        | FlowStep.retention_platform | FlowStep.retention_jobs
        | FlowStep.retention_move | FlowStep.retention_other
        | FlowStep.success | FlowStep.success_alt
        | FlowStep.retention_accepted | FlowStep.retention_final) as same =>
         same
     end
  /\ hasLawyer after =
     match step flowState with
     | FlowStep.visa_yes | FlowStep.visa_no => None
     | _ => hasLawyer flowState
     end
  /\ hasJob after = hasJob flowState
  /\ surveyData after = surveyData flowState
  /\ feedback after = feedback flowState
  /\ visaType after = visaType flowState
  /\ completedSteps after = completedSteps flowState
  /\ retentionData after = retentionData flowState
  /\ match step flowState with
     | FlowStep.job_question | FlowStep.retention_offer
     | FlowStep.retention_platform | FlowStep.retention_jobs
     | FlowStep.retention_move | FlowStep.retention_other
     | FlowStep.success | FlowStep.success_alt
     | FlowStep.retention_accepted | FlowStep.retention_final =>
         after = flowState
     | _ => True
     end.
Proof.
  destruct flowState as [st hj sd fb hl vt cs rd].
  unfold transition, showBackButton, goBack, idle.
  cbn [step hasLawyer].
  destruct st; cbn; repeat split.
Qed.

Lemma back_follows_static_map_witness :
  step visa_state = FlowStep.visa_yes
  /\ hasLawyer visa_state = Some true
  /\ step (fst (transition visa_state Back)) = FlowStep.visa_support
  /\ hasLawyer (fst (transition visa_state Back)) = None
  /\ visaType (fst (transition visa_state Back)) = "H-1B"
  /\ step (fst (transition (reason_state None) Back)) = FlowStep.retention_survey
  /\ fst (transition (with_step initialState FlowStep.retention_offer) Back)
     = with_step initialState FlowStep.retention_offer.
Proof.
  destruct (back_follows_static_map visa_state)
    as (_ & Hstep & Hlawyer & _ & _ & _ & Hvisa & _).
  destruct (back_follows_static_map (reason_state None)) as (_ & Hreason & _).
  destruct (back_follows_static_map
              (with_step initialState FlowStep.retention_offer))
    as (_ & _ & _ & _ & _ & _ & _ & _ & _ & Hsame).
  repeat split; assumption.
Defined.

(** The handler alone knows a target for retention-offer; the header does
    not show the button there. *)
Lemma goBack_at_retention_offer (flowState : FlowState) :
  step flowState = FlowStep.retention_offer ->
  goBack flowState flowState = (with_step flowState FlowStep.job_question, [])
  /\ showBackButton flowState = false.
Proof.
  intros Hstep. unfold goBack, showBackButton. rewrite Hstep. split; reflexivity.
Qed.

(** C4. At step feedback, with a feedback text shorter than 25 characters,
    the submit action returns the state unchanged and dispatches nothing. *)
Theorem short_feedback_submit_is_noop (flowState : FlowState) :
  step flowState = FlowStep.feedback ->
  (String.length (feedback flowState) < 25)%nat ->
  transition flowState Submit = (flowState, []).
Proof.
  intros Hstep Hshort. unfold transition. rewrite Hstep.
  unfold button, isFeedbackValid, MIN_FEEDBACK_LENGTH.
  destruct (Z.leb_spec 25 (Z.of_nat (String.length (feedback flowState))));
    [lia | reflexivity].
Qed.

Lemma short_feedback_submit_is_noop_witness :
  step short_feedback_state = FlowStep.feedback
  /\ feedback short_feedback_state = "short"
  /\ transition short_feedback_state Submit = (short_feedback_state, []).
Proof.
  split; [reflexivity | split; [reflexivity |]].
  apply (short_feedback_submit_is_noop short_feedback_state).
  - reflexivity.
  - simpl. lia.
Defined.

(** C5. At each of retention-offer, retention-survey, retention-reason,
    retention-platform, retention-jobs, retention-move and retention-other,
    accept(true) moves to retention-accepted and dispatches exactly one
    submission, accepted with reason "Accepted retention offer"; at
    retention-offer, accept(false) moves to retention-survey and dispatches
    none. *)
Theorem accept_offer (flowState : FlowState) :
  In (step flowState) offer_steps ->
  transition flowState (Accept true) =
    (with_completedSteps (with_step flowState FlowStep.retention_accepted) 0,
     [ {| accepted_downsell := true;
          reason := Some "Accepted retention offer" |} ])
  /\ (step flowState = FlowStep.retention_offer ->
      transition flowState (Accept false) =
        (with_completedSteps (with_step flowState FlowStep.retention_survey) 1,
         [])).
Proof.
  intros Hin. unfold transition, handleRetentionOffer, submitCancellation.
  simpl in Hin.
  destruct Hin as [<- | [<- | [<- | [<- | [<- | [<- | [<- | []]]]]]]];
    (split; [reflexivity | intros Hstep; try discriminate; reflexivity]).
Qed.

Lemma accept_offer_witness :
  let flowState := with_step initialState FlowStep.retention_offer in
  step (fst (transition flowState (Accept true))) = FlowStep.retention_accepted
  /\ List.length (snd (transition flowState (Accept true))) = 1%nat
  /\ step (fst (transition flowState (Accept false))) = FlowStep.retention_survey
  /\ snd (transition flowState (Accept false)) = [].
Proof.
  intros flowState.
  destruct (accept_offer flowState) as [Hyes Hno].
  - simpl. left. reflexivity.
  - rewrite Hyes, (Hno eq_refl). repeat split.
Defined.

(** With no cancellation reason chosen, the forward button of the
    retention-reason panel is disabled: the submit action changes nothing,
    and the step does not become retention-final. *)
Lemma unset_reason_submit_stays :
  step (reason_state None) = FlowStep.retention_reason
  /\ RetentionData.cancellationReason (retentionData (reason_state None)) = None
  /\ transition (reason_state None) Submit = (reason_state None, [])
  /\ step (fst (transition (reason_state None) Submit)) <> FlowStep.retention_final.
Proof.
  repeat split; discriminate.
Qed.

(** C6, amended. At step retention-reason with a cancellation reason set
    (not null, not empty), the submit action routes by it: the five listed
    reasons lead to their steps and any other value that is not the name of
    a property every object inherits leads to retention-final.  With the
    reason unset the submit action leaves the state unchanged; the handler
    [handleRetentionReasonSubmit], called on such a state, would route to
    retention-final. *)
Theorem reason_submit_routes (flowState : FlowState) :
  step flowState = FlowStep.retention_reason ->
  (forall why,
      RetentionData.cancellationReason (retentionData flowState) = Some why ->
      why <> "" ->
      ~ In why inherited_names ->
      transition flowState Submit =
        (with_completedSteps (with_step flowState (spec_route why)) 3, [])
      /\ step (fst (transition flowState Submit)) = spec_route why
      /\ completedSteps (fst (transition flowState Submit)) = 3)
  /\ (Js.truthy_nullable
        (RetentionData.cancellationReason (retentionData flowState)) = false ->
      transition flowState Submit = (flowState, [])
      /\ handleRetentionReasonSubmit flowState flowState =
           (with_completedSteps
              (with_step flowState FlowStep.retention_final) 3, [])
      /\ step (fst (handleRetentionReasonSubmit flowState flowState))
         = FlowStep.retention_final).
Proof.
  intros Hstep. unfold transition. rewrite Hstep. unfold button. split.
  - intros why Hwhy Hset Hown.
    rewrite Hwhy. simpl Js.truthy_nullable.
    pose proof (proj2 (truthy_string_true why) Hset) as Htruthy.
    rewrite Htruthy. simpl negb. cbv iota.
    unfold handleRetentionReasonSubmit.
    rewrite Hwhy, (nextStep_spec_route why Hset). repeat split.
  - intros Hunset. rewrite Hunset. simpl negb. cbv iota. split.
    + reflexivity.
    + unfold handleRetentionReasonSubmit.
      rewrite (nextStep_unset _ Hunset). split; reflexivity.
Qed.

Lemma reason_submit_routes_witness :
  step (fst (transition (reason_state (Some "Too expensive")) Submit))
    = FlowStep.retention_price
  /\ step (fst (transition (reason_state (Some "No reason")) Submit))
    = FlowStep.retention_final.
Proof.
  split.
  - apply (proj1 (reason_submit_routes (reason_state (Some "Too expensive"))
                    eq_refl) "Too expensive" eq_refl).
    + discriminate.
    + simpl. intuition discriminate.
  - apply (proj1 (reason_submit_routes (reason_state (Some "No reason"))
                    eq_refl) "No reason" eq_refl).
    + discriminate.
    + simpl. intuition discriminate.
Defined.

(** C7. At step visa-yes or visa-no with a visa type that is not blank, the
    submit action moves to success when [hasLawyer] is true and to
    success-alt otherwise, and dispatches exactly one submission: not
    accepted, with reason "Completed visa support flow". *)
Theorem visa_details_submit (flowState : FlowState) :
  step flowState = FlowStep.visa_yes \/ step flowState = FlowStep.visa_no ->
  Js.trim (visaType flowState) <> "" ->
  transition flowState Submit =
    (with_step flowState
       (match hasLawyer flowState with
        | Some true => FlowStep.success
        | _ => FlowStep.success_alt
        end),
     [ {| accepted_downsell := false;
          reason := Some "Completed visa support flow" |} ]).
Proof.
  intros Hstep Hfilled.
  apply truthy_string_true in Hfilled.
  unfold transition, button, handleVisaDetailsSubmit, submitCancellation.
  destruct Hstep as [-> | ->]; rewrite Hfilled; simpl negb; cbv iota;
    destruct (hasLawyer flowState) as [[|] |]; reflexivity.
Qed.

Lemma visa_details_submit_witness :
  step visa_state = FlowStep.visa_yes
  /\ step (fst (transition visa_state Submit)) = FlowStep.success
  /\ snd (transition visa_state Submit) =
       [ {| accepted_downsell := false;
            reason := Some "Completed visa support flow" |} ].
Proof.
  assert (Hrun := visa_details_submit visa_state).
  rewrite Hrun.
  - repeat split.
  - left. reflexivity.
  - simpl. discriminate.
Defined.

(** * Properties of the route *)

Lemma Value_eqb_eq (a b : Value) : Value_eqb a b = true <-> a = b.
Proof.
  unfold Value_eqb. destruct (Value_eq_dec a b); split; congruence.
Qed.

Lemma of_pair_identity (userId subscriptionId : Value) (row : Cancellation) :
  of_pair userId subscriptionId row = true
  <-> identity row = (userId, subscriptionId).
Proof.
  unfold of_pair, identity. rewrite andb_true_iff, !Value_eqb_eq.
  split; [intros [-> ->]; reflexivity | intros Heq; inversion Heq; auto].
Qed.

Lemma typeof_boolean (v : Value) :
  typeof v = "boolean" <-> exists b, v = VBoolean b.
Proof.
  split.
  - destruct v; simpl; intros Htype; try discriminate. eauto.
  - intros [b ->]. reflexivity.
Qed.

Lemma typeof_string (v : Value) :
  typeof v = "string" <-> exists s, v = VString s.
Proof.
  split.
  - destruct v; simpl; intros Htype; try discriminate. eauto.
  - intros [s ->]. reflexivity.
Qed.

(** [getOrAssignVariant] case by case: the answer to the lookup, the record
    found, the answer to the insert. *)
Lemma getOrAssignVariant_cases (userId subscriptionId : Value) (w : World) :
  getOrAssignVariant userId subscriptionId w =
  let generate :=
    match insert_reply w with
    | Served =>
        (Resolved (drawn w),
         with_cancellations (drawn_and_counted w)
           (cancellations w ++ [fresh_row userId subscriptionId (drawn w) w]))
    | Refused => (Resolved (drawn w), drawn_and_counted w)
    | Crashed => (Rejected StorageFailure, drawn_and_counted w)
    end in
  match lookup_reply w with
  | Served =>
      match stored userId subscriptionId w with
      | Some v => (Resolved v, counted w)
      | None => generate
      end
  | Refused => generate
  | Crashed => (Rejected StorageFailure, counted w)
  end.
Proof.
  unfold getOrAssignVariant, await, select_single, insert, call, randomByte,
    resolve, lookup_reply, insert_reply, stored, drawn, fresh_row, counted,
    drawn_and_counted.
  destruct (backend w (storage_calls w)); simpl.
  - destruct (List.filter _ (cancellations w)) as [| row [| other rest]];
      simpl; destruct (backend w (S (storage_calls w))); reflexivity.
  - destruct (backend w (S (storage_calls w))); reflexivity.
  - reflexivity.
Qed.

(** A failed lookup that resolves is taken for "no record", a failed insert
    that resolves is ignored, and the drawn variant is returned although
    nothing was stored. *)
Lemma failed_insert_returns_variant :
  let w := world_of [] [] insert_refused in
  let out := getOrAssignVariant (VString "user-1") (VString "sub-1") w in
  persistence_fails (VString "user-1") (VString "sub-1") w
  /\ fst out = Resolved A
  /\ cancellations (snd out) = [].
Proof.
  simpl. split; [| split; reflexivity].
  right. split; [reflexivity | discriminate].
Qed.

(** A lookup that resolves with an error although the record exists: the
    call draws again and stores a second record for the pair. *)
Lemma refused_lookup_duplicates_record :
  let w := world_of [sample_row] [] (fun k => match k with O => Refused | _ => Served end) in
  let out := getOrAssignVariant (VString "user-1") (VString "sub-1") w in
  fst out = Resolved A
  /\ List.map Cancellation.downsell_variant (cancellations (snd out)) = [B; A]
  /\ List.map identity (cancellations (snd out))
     = [ (VString "user-1", VString "sub-1"); (VString "user-1", VString "sub-1") ].
Proof. repeat split. Qed.

(** C2, amended. When a persistence operation of [getOrAssignVariant] fails,
    the failure reaches the caller only if the storage call rejects.  A
    failure that the storage call reports in its result is not inspected:
    the function returns the variant it has drawn, and when the insert was
    not served no record holds that variant. *)
Theorem storage_failure_outcome (userId subscriptionId : Value) (w : World) :
  persistence_fails userId subscriptionId w ->
  let out := getOrAssignVariant userId subscriptionId w in
  fst out =
    match lookup_reply w, insert_reply w with
    | Crashed, _ | _, Crashed => Rejected StorageFailure
    | _, _ => Resolved (drawn w)
    end
  /\ cancellations (snd out) =
    match lookup_reply w, insert_reply w with
    | Crashed, _ => cancellations w
    | _, Served =>
        (cancellations w ++ [fresh_row userId subscriptionId (drawn w) w])%list
    | _, _ => cancellations w
    end
  /\ subscriptions (snd out) = subscriptions w.
Proof.
  intros Hfails out. subst out. rewrite getOrAssignVariant_cases.
  unfold persistence_fails in Hfails. cbv zeta.
  destruct (lookup_reply w) eqn:Hlookup.
  - (* the lookup is served and finds no record *)
    destruct Hfails as [Hbad | [Hnone Hinsert]]; [congruence |].
    rewrite Hnone.
    destruct (insert_reply w); [congruence | |]; repeat split; reflexivity.
  - (* the lookup resolves with an error *)
    destruct (insert_reply w); repeat split; reflexivity.
  - (* the lookup rejects *)
    repeat split; reflexivity.
Qed.

Lemma storage_failure_outcome_witness :
  let w := world_of [] [] insert_refused in
  let out := getOrAssignVariant (VString "user-1") (VString "sub-1") w in
  fst out = Resolved A /\ cancellations (snd out) = [].
Proof.
  intros w out.
  destruct (storage_failure_outcome (VString "user-1") (VString "sub-1") w)
    as (Hresult & Hrows & _).
  - right. split; [reflexivity | discriminate].
  - split; [exact Hresult | exact Hrows].
Defined.

Lemma NoDup_snoc {T : Type} (l : list T) (x : T) :
  List.NoDup l -> ~ In x l -> List.NoDup (l ++ [x]).
Proof.
  induction l as [| y l IH]; simpl; intros Hl Hx.
  - constructor; [intros [] | constructor].
  - inversion Hl as [| ? ? Hy Hrest]; subst. constructor.
    + intros Hin. apply in_app_or in Hin. destruct Hin as [Hin | [-> | []]].
      * exact (Hy Hin).
      * apply Hx. left. reflexivity.
    + apply IH; [exact Hrest |]. intros Hin. apply Hx. right. exact Hin.
Qed.

(** Under the key invariant a record of a pair is the one row that the
    lookup selects. *)
Lemma filter_misses (userId subscriptionId : Value) (rows : list Cancellation) :
  ~ In (userId, subscriptionId) (List.map identity rows) ->
  List.filter (of_pair userId subscriptionId) rows = [].
Proof.
  induction rows as [| row rows IH]; simpl; intros Hfresh; [reflexivity |].
  destruct (of_pair userId subscriptionId row) eqn:Hrow.
  - apply of_pair_identity in Hrow. exfalso. apply Hfresh. left. exact Hrow.
  - apply IH. intros Hin. apply Hfresh. right. exact Hin.
Qed.

Lemma filter_unique (userId subscriptionId : Value) (rows : list Cancellation)
    (row : Cancellation) :
  unique_pairs rows ->
  In row rows ->
  of_pair userId subscriptionId row = true ->
  List.filter (of_pair userId subscriptionId) rows = [row].
Proof.
  unfold unique_pairs.
  induction rows as [| head rows IH]; simpl; intros Hkey Hin Hrow; [contradiction |].
  inversion Hkey as [| ? ? Hhead Hrest]; subst.
  apply of_pair_identity in Hrow.
  destruct Hin as [-> | Hin].
  - rewrite (proj2 (of_pair_identity userId subscriptionId row) Hrow).
    rewrite filter_misses; [reflexivity |].
    rewrite <- Hrow. exact Hhead.
  - destruct (of_pair userId subscriptionId head) eqn:Hother.
    + apply of_pair_identity in Hother. exfalso. apply Hhead.
      rewrite Hother, <- Hrow. apply in_map. exact Hin.
    + apply IH; [exact Hrest | exact Hin |].
      apply of_pair_identity. exact Hrow.
Qed.

Lemma stored_unique (userId subscriptionId : Value) (w : World)
    (row : Cancellation) :
  unique_pairs (cancellations w) ->
  In row (cancellations w) ->
  of_pair userId subscriptionId row = true ->
  stored userId subscriptionId w = Some (Cancellation.downsell_variant row).
Proof.
  intros Hkey Hin Hrow. unfold stored.
  rewrite (filter_unique _ _ _ _ Hkey Hin Hrow). reflexivity.
Qed.

(** Calls that find the record: every one returns the stored variant and
    touches neither table nor the random source. *)
Lemma sequential_calls_found (n : nat) (userId subscriptionId : Value) (v : Variant) :
  forall w : World,
    (forall k, backend w k = Served) ->
    stored userId subscriptionId w = Some v ->
    fst (sequential_calls n userId subscriptionId w) = List.repeat (Resolved v) n
    /\ cancellations (snd (sequential_calls n userId subscriptionId w))
       = cancellations w
    /\ subscriptions (snd (sequential_calls n userId subscriptionId w))
       = subscriptions w
    /\ random_reads (snd (sequential_calls n userId subscriptionId w))
       = random_reads w.
Proof.
  induction n as [| n IH]; intros w Hserved Hstored; simpl.
  - repeat split.
  - rewrite getOrAssignVariant_cases. cbv zeta.
    unfold lookup_reply. rewrite Hserved, Hstored.
    destruct (IH (counted w)) as (Hall & Hrows & Hsubs & Hreads);
      [exact Hserved | exact Hstored |].
    destruct (sequential_calls n userId subscriptionId (counted w))
      as [rest w''].
    simpl in *. rewrite Hall. repeat split; assumption.
Qed.

(** C3. [getOrAssignVariant] is idempotent: when the store holds a record
    for the identity pair, a call returns the variant of that record and
    creates no record, so any number of calls one after the other all return
    that same variant. *)
Theorem getOrAssignVariant_idempotent (n : nat) (userId subscriptionId : Value)
    (w : World) (row : Cancellation) :
  (forall k, backend w k = Served) ->
  unique_pairs (cancellations w) ->
  In row (cancellations w) ->
  of_pair userId subscriptionId row = true ->
  fst (sequential_calls n userId subscriptionId w)
    = List.repeat (Resolved (Cancellation.downsell_variant row)) n
  /\ cancellations (snd (sequential_calls n userId subscriptionId w))
     = cancellations w
  /\ subscriptions (snd (sequential_calls n userId subscriptionId w))
     = subscriptions w.
Proof.
  intros Hserved Hkey Hin Hrow.
  destruct (sequential_calls_found n userId subscriptionId
              (Cancellation.downsell_variant row) w Hserved)
    as (Hall & Hrows & Hsubs & _).
  - apply stored_unique; assumption.
  - repeat split; assumption.
Qed.

Lemma getOrAssignVariant_idempotent_witness :
  fst (sequential_calls 3 (VString "user-1") (VString "sub-1") sample_world)
    = [Resolved B; Resolved B; Resolved B]
  /\ cancellations
       (snd (sequential_calls 3 (VString "user-1") (VString "sub-1") sample_world))
     = [sample_row].
Proof.
  destruct (getOrAssignVariant_idempotent 3 (VString "user-1") (VString "sub-1")
              sample_world sample_row) as (Hall & Hrows & _).
  - intros k. reflexivity.
  - unfold unique_pairs. simpl. constructor; [simpl; tauto | constructor].
  - simpl. left. reflexivity.
  - reflexivity.
  - split; [exact Hall | exact Hrows].
Defined.

(** A pair without a record: the first served call stores the variant it
    draws, and the calls after it return that variant. *)
Lemma first_call_settles_variant (n : nat) (userId subscriptionId : Value)
    (w : World) :
  (forall k, backend w k = Served) ->
  unique_pairs (cancellations w) ->
  ~ In (userId, subscriptionId) (List.map identity (cancellations w)) ->
  fst (sequential_calls (S n) userId subscriptionId w)
    = List.repeat (Resolved (drawn w)) (S n)
  /\ cancellations (snd (sequential_calls (S n) userId subscriptionId w))
     = (cancellations w ++ [fresh_row userId subscriptionId (drawn w) w])%list
  /\ unique_pairs
       (cancellations (snd (sequential_calls (S n) userId subscriptionId w))).
Proof.
  intros Hserved Hkey Hfresh.
  assert (Hkey' : unique_pairs
            (cancellations w ++ [fresh_row userId subscriptionId (drawn w) w])).
  { unfold unique_pairs in *. rewrite List.map_app. simpl.
    apply NoDup_snoc; assumption. }
  simpl sequential_calls. rewrite getOrAssignVariant_cases. cbv zeta.
  unfold lookup_reply, insert_reply. rewrite !Hserved.
  unfold stored. rewrite (filter_misses _ _ _ Hfresh).
  set (w1 := with_cancellations _ _).
  destruct (sequential_calls_found n userId subscriptionId (drawn w) w1)
    as (Hall & Hrows & _).
  - exact Hserved.
  - apply (stored_unique userId subscriptionId w1
             (fresh_row userId subscriptionId (drawn w) w)).
    + exact Hkey'.
    + simpl. apply in_or_app. right. left. reflexivity.
    + apply of_pair_identity. reflexivity.
  - destruct (sequential_calls n userId subscriptionId w1) as [rest w2].
    simpl in *. rewrite Hall, Hrows. repeat split. exact Hkey'.
Qed.

(** [POST] always answers: a rejection inside it ends in the 500 response. *)
Lemma POST_unparsed (w : World) :
  POST NotJson w
    = (Resolved (mkResponse 500 false (Some "Internal server error") None), w)
  /\ POST JsonNull w
    = (Resolved (mkResponse 500 false (Some "Internal server error") None), w).
Proof. split; reflexivity. Qed.

(** The variant branch: identifiers truthy, [get_variant] truthy. *)
Lemma POST_variant_branch (body : Body) (w : World) :
  truthy (Body.user_id body) = true ->
  truthy (Body.subscription_id body) = true ->
  truthy (Body.get_variant body) = true ->
  POST (Json body) w =
    match getOrAssignVariant (Body.user_id body) (Body.subscription_id body) w with
    | (Resolved assigned, w') =>
        (Resolved (mkResponse 200 true None (Some assigned)), w')
    | (Rejected _, w') =>
        (Resolved (mkResponse 500 false (Some "Internal server error") None), w')
    end.
Proof.
  intros Huser Hsub Hget.
  unfold POST, try_catch, await at 1, request_json, resolve at 1.
  rewrite Huser, Hsub, Hget. cbn [negb orb andb].
  unfold await.
  destruct (getOrAssignVariant _ _ w) as [[assigned | why] w']; reflexivity.
Qed.

(** The submission branch once the checks have passed. *)
Lemma POST_submission_branch (body : Body) (accepted : bool) (w : World) :
  truthy (Body.user_id body) = true ->
  truthy (Body.subscription_id body) = true ->
  truthy (Body.get_variant body) = false ->
  Body.accepted_downsell body = VBoolean accepted ->
  truthy (Body.reason body)
    && negb (String.eqb (typeof (Body.reason body)) "string") = false ->
  (forall k, backend w k = Served) ->
  POST (Json body) w =
    (Resolved (mkResponse 200 true None None),
     if accepted
     then with_cancellations (counted w)
            (recorded accepted (Body.reason body) (Body.user_id body)
               (Body.subscription_id body) (cancellations w))
     else with_subscriptions
            (counted
               (with_cancellations (counted w)
                  (recorded accepted (Body.reason body) (Body.user_id body)
                     (Body.subscription_id body) (cancellations w))))
            (marked_pending (clock w) (Body.subscription_id body)
               (subscriptions w))).
Proof.
  intros Huser Hsub Hget Haccepted Hreason Hserved.
  unfold POST, try_catch, await at 1, request_json, resolve at 1.
  rewrite Huser, Hsub, Hget, Haccepted, Hreason. cbn [negb orb andb].
  unfold await, update_cancellations, update_subscriptions, call, resolve.
  rewrite Hserved. simpl.
  destruct accepted; simpl; [reflexivity |].
  rewrite Hserved. reflexivity.
Qed.

(** The answer is 400 exactly under [bad_request], and then nothing in the
    world has changed. *)
Ltac settle_answer :=
  do 2 eexists; split; [reflexivity |];
  cbn [http_status success negb orb andb]; split;
  [ split; intros Hcode; (reflexivity || discriminate Hcode)
  | intros Hcode; (discriminate Hcode || (split; reflexivity)) ].

Lemma POST_bad_request (body : Body) (w : World) :
  exists response w',
    POST (Json body) w = (Resolved response, w')
    /\ (http_status response = 400 <-> bad_request body = true)
    /\ (http_status response = 400 -> success response = false /\ w' = w).
Proof.
  unfold bad_request.
  destruct (truthy (Body.user_id body)) eqn:Huser;
    [| unfold POST, try_catch, await, request_json, resolve; rewrite Huser;
       settle_answer ].
  destruct (truthy (Body.subscription_id body)) eqn:Hsub;
    [| unfold POST, try_catch, await, request_json, resolve;
       rewrite Huser, Hsub; settle_answer ].
  destruct (truthy (Body.get_variant body)) eqn:Hget.
  - rewrite (POST_variant_branch body w Huser Hsub Hget).
    destruct (getOrAssignVariant _ _ w) as [[assigned | why] w'];
      settle_answer.
  - unfold POST, try_catch, await at 1, request_json, resolve at 1.
    rewrite Huser, Hsub, Hget. cbn [negb orb andb].
    destruct (Body.accepted_downsell body) as [| | accepted | | |];
      try settle_answer.
    destruct (truthy (Body.reason body)
              && negb (String.eqb (typeof (Body.reason body)) "string"));
      [settle_answer |].
    unfold await, update_cancellations, update_subscriptions, call, resolve.
    destruct (backend w (storage_calls w)); destruct accepted; simpl;
      try settle_answer;
      destruct (backend w (S (storage_calls w))); settle_answer.
Qed.

(** C8. The rejection of a reason that is present and not a string misses
    the falsy values: a submission with [reason: false] is answered with
    status 200 and [success = true], and [false] is written as the reason of
    the cancellation record. *)
Theorem falsy_reason_is_accepted :
  let out := POST falsy_reason_request sample_world in
  typeof (VBoolean false) <> "string"
  /\ fst out = Resolved (mkResponse 200 true None None)
  /\ List.map Cancellation.reason (cancellations (snd out)) = [VBoolean false]
  /\ List.map Cancellation.reason (cancellations sample_world) = [VNull].
Proof.
  repeat split. discriminate.
Qed.

(** C9. A valid submission request (identifiers not empty, a boolean
    [accepted_downsell], the reason absent or a string), with the storage
    serving its calls, is answered with [success = true]; the cancellation
    records of the pair receive [accepted_downsell] and the reason; the
    subscription of that id becomes pending_cancellation when
    [accepted_downsell] is false, and the subscriptions stay as they were
    when it is true. *)
Theorem submission_is_recorded (body : Body) (accepted : bool) (w : World) :
  truthy (Body.user_id body) = true ->
  truthy (Body.subscription_id body) = true ->
  truthy (Body.get_variant body) = false ->
  Body.accepted_downsell body = VBoolean accepted ->
  (Body.reason body = VUndefined \/ exists why, Body.reason body = VString why) ->
  (forall k, backend w k = Served) ->
  let out := POST (Json body) w in
  fst out = Resolved (mkResponse 200 true None None)
  /\ cancellations (snd out)
     = recorded accepted (Body.reason body) (Body.user_id body)
         (Body.subscription_id body) (cancellations w)
  /\ (forall row,
        In row (cancellations (snd out)) ->
        of_pair (Body.user_id body) (Body.subscription_id body) row = true ->
        Cancellation.accepted_downsell row = Some accepted
        /\ (forall why, Body.reason body = VString why ->
                        Cancellation.reason row = VString why))
  /\ subscriptions (snd out)
     = (if accepted then subscriptions w
        else marked_pending (clock w) (Body.subscription_id body)
               (subscriptions w))
  /\ (accepted = false ->
      forall row,
        In row (subscriptions (snd out)) ->
        Subscription.id row = Body.subscription_id body ->
        Subscription.status row = pending_cancellation).
Proof.
  intros Huser Hsub Hget Haccepted Hreason Hserved out.
  assert (Hpasses : truthy (Body.reason body)
                    && negb (String.eqb (typeof (Body.reason body)) "string")
                    = false).
  { destruct Hreason as [-> | [why ->]]; [reflexivity |].
    apply andb_false_intro2. reflexivity. }
  assert (Hrows : cancellations (snd out)
                  = recorded accepted (Body.reason body) (Body.user_id body)
                      (Body.subscription_id body) (cancellations w)).
  { subst out.
    rewrite (POST_submission_branch body accepted w Huser Hsub Hget Haccepted
               Hpasses Hserved).
    destruct accepted; reflexivity. }
  assert (Hsubs : subscriptions (snd out)
                  = (if accepted then subscriptions w
                     else marked_pending (clock w) (Body.subscription_id body)
                            (subscriptions w))).
  { subst out.
    rewrite (POST_submission_branch body accepted w Huser Hsub Hget Haccepted
               Hpasses Hserved).
    destruct accepted; reflexivity. }
  split; [| split; [exact Hrows | split; [| split; [exact Hsubs |]]]].
  - subst out.
    rewrite (POST_submission_branch body accepted w Huser Hsub Hget Haccepted
               Hpasses Hserved).
    reflexivity.
  - intros row Hin Hrow. rewrite Hrows in Hin. unfold recorded in Hin.
    apply in_map_iff in Hin. destruct Hin as (old & Hnew & _).
    destruct (of_pair _ _ old) eqn:Hold.
    + subst row. split; [reflexivity |].
      intros why Hwhy. simpl. rewrite Hwhy. reflexivity.
    + subst row. congruence.
  - intros -> row Hin Hid. rewrite Hsubs in Hin. unfold marked_pending in Hin.
    apply in_map_iff in Hin. destruct Hin as (old & Hnew & _).
    destruct (Value_eqb (Subscription.id old) (Body.subscription_id body)) eqn:Hold.
    + subst row. reflexivity.
    + subst row. apply Value_eqb_eq in Hid. congruence.
Qed.

Lemma submission_is_recorded_witness :
  let out := POST (Json (sample_submission false)) sample_world in
  fst out = Resolved (mkResponse 200 true None None)
  /\ List.map Cancellation.accepted_downsell (cancellations (snd out))
     = [Some false]
  /\ List.map Subscription.status (subscriptions (snd out))
     = [pending_cancellation].
Proof.
  intros out.
  destruct (submission_is_recorded (sample_submission false) false sample_world)
    as (Hanswer & Hrows & _ & Hsubs & _).
  - reflexivity.
  - reflexivity.
  - reflexivity.
  - reflexivity.
  - right. exists "Completed visa support flow". reflexivity.
  - intros k. reflexivity.
  - subst out. rewrite Hanswer, Hrows, Hsubs. repeat split.
Defined.

(** C10. A body with a truthy [get_variant] and non-empty identifiers is
    answered with the variant alone ([success = true]), when no storage call
    rejects: the subscriptions are untouched, the cancellation records
    already stored are untouched (at most the record of a newly assigned
    variant is added), and the answer and the store do not depend on the
    [accepted_downsell] and [reason] fields of the body. *)
Theorem variant_branch_has_priority (body : Body) (w : World) :
  truthy (Body.user_id body) = true ->
  truthy (Body.subscription_id body) = true ->
  truthy (Body.get_variant body) = true ->
  (forall k, backend w k <> Crashed) ->
  let out := POST (Json body) w in
  (exists assigned,
      fst out = Resolved (mkResponse 200 true None (Some assigned))
      /\ (cancellations (snd out) = cancellations w
          \/ cancellations (snd out)
             = (cancellations w
                ++ [fresh_row (Body.user_id body) (Body.subscription_id body)
                      assigned w])%list))
  /\ subscriptions (snd out) = subscriptions w
  /\ (forall accepted why,
        POST (Json (with_submission_fields body accepted why)) w = out).
Proof.
  intros Huser Hsub Hget Halive out. subst out. split; [| split].
  - rewrite (POST_variant_branch body w Huser Hsub Hget).
    rewrite getOrAssignVariant_cases. cbv zeta.
    pose proof (Halive (storage_calls w)) as Hfirst.
    pose proof (Halive (S (storage_calls w))) as Hsecond.
    unfold lookup_reply, insert_reply.
    destruct (backend w (storage_calls w)); [| | congruence];
      [destruct (stored _ _ w) as [v |] |];
      try (exists v; split; [reflexivity | left; reflexivity]);
      (destruct (backend w (S (storage_calls w))); [| | congruence];
       exists (drawn w); split;
       [reflexivity | right; reflexivity
       | reflexivity | left; reflexivity]).
  - rewrite (POST_variant_branch body w Huser Hsub Hget).
    rewrite getOrAssignVariant_cases. cbv zeta.
    destruct (lookup_reply w); [destruct (stored _ _ w) | |];
      try reflexivity; destruct (insert_reply w); reflexivity.
  - intros accepted why.
    rewrite (POST_variant_branch body w Huser Hsub Hget).
    rewrite (POST_variant_branch (with_submission_fields body accepted why) w
               Huser Hsub Hget).
    reflexivity.
Qed.

Lemma variant_branch_has_priority_witness :
  let out := POST (Json sample_variant_body) sample_world in
  fst out = Resolved (mkResponse 200 true None (Some B))
  /\ cancellations (snd out) = [sample_row]
  /\ subscriptions (snd out) = [sample_subscription].
Proof.
  intros out.
  destruct (variant_branch_has_priority sample_variant_body sample_world)
    as (_ & Hsubs & _).
  - reflexivity.
  - reflexivity.
  - reflexivity.
  - intros k. discriminate.
  - subst out. rewrite Hsubs. repeat split.
Defined.

(** * Sessions of the flow *)

Lemma offered_In (options : list string) (value : string) :
  offered options value = true <-> In value options.
Proof.
  unfold offered. rewrite existsb_exists. split.
  - intros (x & Hin & Heq). apply String.eqb_eq in Heq. subst. exact Hin.
  - intros Hin. exists value. split; [exact Hin | apply String.eqb_refl].
Qed.

Lemma nextStep_offered (why : string) :
  In why CANCELLATION_REASONS ->
  reason_of_step (nextStep (Some why)) = Some why.
Proof.
  intros Hin. simpl in Hin.
  destruct Hin as [<- | [<- | [<- | [<- | [<- | []]]]]]; vm_compute; reflexivity.
Qed.

Ltac open_state s :=
  destruct s as [st hj sd fb hl vt cs rd];
  unfold consistent, reason_offered, job_found, still_looking,
    isSurveyValid, isFeedbackValid, isRetentionSurveyValid in *;
  cbn [step hasJob surveyData feedback hasLawyer visaType completedSteps
       retentionData] in *.

Lemma fill_consistent (s : FlowState) (i : Input) :
  consistent s -> consistent (fill s i).
Proof.
  open_state s. intros (Hreason & Hcount & Hstep).
  unfold fill. cbn [step].
  destruct st; destruct i as [u | u | v | v | v | v]; try (repeat split; tauto || lia || assumption).
  all: try (destruct (survey_offers u); [destruct u |]; cbn; repeat split; tauto || lia || assumption).
  all: destruct u as [v | v | v | v]; cbn [retention_offers];
    try (repeat split; tauto || lia || assumption);
    destruct (offered _ v) eqn:Hoffered;
    try (cbn; repeat split; tauto || lia || assumption).
  apply offered_In in Hoffered. cbn. repeat split; tauto || lia || assumption.
Qed.

Ltac settle :=
  cbn [fst snd step hasJob surveyData feedback hasLawyer visaType
       completedSteps retentionData with_step with_hasJob with_hasLawyer
       with_completedSteps negb reason_of_step];
  repeat split; try (tauto || lia || assumption || reflexivity).

Lemma transition_consistent (s : FlowState) (a : Action) :
  consistent s -> consistent (fst (transition s a)).
Proof.
  open_state s. intros (Hreason & Hcount & Hstep).
  unfold transition, showBackButton, goBack, button, idle,
    handleJobResponse, handleSurveySubmit, handleFeedbackSubmit,
    handleCongratulationsNext, handleVisaSupportResponse,
    handleVisaDetailsSubmit, handleRetentionOffer,
    handleRetentionSurveySubmit, handleRetentionReasonSubmit,
    handleReasonFeedbackSubmit, handleRetentionPriceSubmit,
    isSurveyValid, isFeedbackValid, isRetentionSurveyValid,
    isReasonFeedbackValid.
  cbn [step hasJob surveyData feedback hasLawyer visaType completedSteps
       retentionData].
  destruct st; destruct a as [b | | | accepted |];
    cbn [backMap FlowStep.eqb FlowStep.eq_dec];
    try (settle; fail);
    try (destruct b; settle; fail);
    try (destruct accepted; settle; fail);
    try (destruct hl as [[|] |]; settle; fail);
    try (match goal with
         | |- context [if negb ?g then _ else _] => destruct g eqn:Hguard
         end; settle; fail).
  - (* visa-yes, submit *)
    destruct Hstep as (Hjob & Hsurvey & Hfeedback & ->).
    destruct (Js.truthy_string (Js.trim vt)) eqn:Hguard; settle.
    apply truthy_string_true. exact Hguard.
  - (* visa-no, submit *)
    destruct Hstep as (Hjob & Hsurvey & Hfeedback & ->).
    destruct (Js.truthy_string (Js.trim vt)) eqn:Hguard; settle.
    apply truthy_string_true. exact Hguard.
  - (* retention-reason, submit *)
    destruct (RetentionData.cancellationReason rd) as [why |] eqn:Hwhy;
      cbn [Js.truthy_nullable]; [| settle; rewrite Hwhy; exact I].
    destruct (Js.truthy_string why) eqn:Hguard;
      [| settle; rewrite Hwhy; exact Hreason].
    pose proof (nextStep_offered why Hreason) as Hroute.
    cbn [negb fst step hasJob completedSteps retentionData with_step with_completedSteps].
    split; [rewrite Hwhy; exact Hreason | split; [lia |]].
    destruct (nextStep (Some why)); cbn [reason_of_step] in Hroute;
      try discriminate;
      (split; [tauto | split; [tauto | cbn [reason_of_step]; congruence]]).
  - (* retention-price, submit *)
    destruct Hstep as (Hjob & Hsurvey & Hwhy).
    destruct (Js.truthy_string _) eqn:Hguard; settle.
    rewrite Hwhy in Hreason. eexists. split; [exact Hwhy | exact Hreason].
  - destruct Hstep as (Hjob & Hsurvey & Hwhy).
    destruct (_ <=? _) eqn:Hguard; settle.
    rewrite Hwhy in Hreason. eexists. split; [exact Hwhy | exact Hreason].
  - destruct Hstep as (Hjob & Hsurvey & Hwhy).
    destruct (_ <=? _) eqn:Hguard; settle.
    rewrite Hwhy in Hreason. eexists. split; [exact Hwhy | exact Hreason].
  - destruct Hstep as (Hjob & Hsurvey & Hwhy).
    destruct (_ <=? _) eqn:Hguard; settle.
    rewrite Hwhy in Hreason. eexists. split; [exact Hwhy | exact Hreason].
  - destruct Hstep as (Hjob & Hsurvey & Hwhy).
    destruct (_ <=? _) eqn:Hguard; settle.
    rewrite Hwhy in Hreason. eexists. split; [exact Hwhy | exact Hreason].
Qed.

Lemma react_consistent (s : FlowState) (e : Event) :
  consistent s -> consistent (fst (react s e)).
Proof.
  destruct e as [a | i]; simpl.
  - apply transition_consistent.
  - apply fill_consistent.
Qed.

Lemma initialState_consistent : consistent initialState.
Proof.
  unfold consistent, reason_offered. simpl. repeat split; lia.
Qed.

Lemma run_consistent (events : list Event) :
  forall s, consistent s -> consistent (fst (run s events)).
Proof.
  induction events as [| e rest IH]; intros s Hs; simpl; [exact Hs |].
  pose proof (react_consistent s e Hs) as Hnext.
  destruct (react s e) as [next sent].
  pose proof (IH next Hnext) as Hfinal.
  destruct (run next rest) as [final later]. exact Hfinal.
Qed.

Lemma terminal_absorbs (s : FlowState) (e : Event) :
  terminal (step s) = true -> react s e = (s, []).
Proof.
  destruct s as [st hj sd fb hl vt cs rd]. cbn [step].
  destruct st; try discriminate; intros _;
    destruct e as [[b | | | [|] |] | [u | u | v | v | v | v]]; reflexivity.
Qed.

(** The submission that ends a flow at a given terminal step. *)
Lemma react_sent (s : FlowState) (e : Event) :
  consistent s ->
  terminal (step s) = false ->
  if terminal (step (fst (react s e)))
  then exists why,
         snd (react s e) =
           [ {| accepted_downsell :=
                  FlowStep.eqb (step (fst (react s e))) FlowStep.retention_accepted;
                reason := Some why |} ]
  else snd (react s e) = [].
Proof.
  intros Hs Hopen.
  destruct e as [a | i].
  2:{ cbn [react fst snd].
      replace (step (fill s i)) with (step s); [rewrite Hopen; reflexivity |].
      destruct s as [st hj sd fb hl vt cs rd]. unfold fill. cbn [step].
      destruct st; destruct i as [u | u | v | v | v | v]; try reflexivity;
        cbn [step]; try (destruct (survey_offers u); reflexivity);
        destruct (retention_offers _ u); reflexivity. }
  cbn [react].
  open_state s. destruct Hs as (Hreason & Hcount & Hstep).
  unfold transition, showBackButton, goBack, button, idle,
    handleJobResponse, handleSurveySubmit, handleFeedbackSubmit,
    handleCongratulationsNext, handleVisaSupportResponse,
    handleVisaDetailsSubmit, handleRetentionOffer,
    handleRetentionSurveySubmit, handleRetentionReasonSubmit,
    handleReasonFeedbackSubmit, handleRetentionPriceSubmit,
    submitCancellation.
  cbn [step hasJob surveyData feedback hasLawyer visaType completedSteps
       retentionData] in *.
  destruct st; try discriminate; destruct a as [b | | | accepted |];
    cbn [backMap FlowStep.eqb FlowStep.eq_dec];
    try (cbn; reflexivity);
    try (cbn; eexists; reflexivity);
    try (destruct b; cbn; reflexivity);
    try (destruct accepted; cbn; try reflexivity; eexists; reflexivity);
    try (destruct hl as [[|] |]; cbn; reflexivity);
    try (match goal with
         | |- context [if negb ?g then _ else _] => destruct g
         end; cbn; try reflexivity; eexists; reflexivity).
  - destruct (Js.truthy_string (Js.trim vt)); destruct hl as [[|] |]; cbn;
      try reflexivity; eexists; reflexivity.
  - destruct (Js.truthy_string (Js.trim vt)); destruct hl as [[|] |]; cbn;
      try reflexivity; eexists; reflexivity.
  - destruct (RetentionData.cancellationReason rd) as [why |];
      cbn [Js.truthy_nullable]; [| cbn; reflexivity].
    destruct (Js.truthy_string why); [| cbn; reflexivity].
    pose proof (nextStep_offered why Hreason) as Hroute.
    cbn [negb fst snd step with_step with_completedSteps].
    destruct (nextStep (Some why)); cbn [reason_of_step] in Hroute;
      try discriminate; reflexivity.
Qed.

Lemma run_sent (events : list Event) :
  forall s,
    consistent s ->
    if terminal (step s)
    then run s events = (s, [])
    else if terminal (step (fst (run s events)))
    then exists why,
           snd (run s events) =
             [ {| accepted_downsell :=
                    FlowStep.eqb (step (fst (run s events)))
                      FlowStep.retention_accepted;
                  reason := Some why |} ]
    else snd (run s events) = [].
Proof.
  induction events as [| e rest IH]; intros s Hs.
  - simpl. destruct (terminal (step s)); reflexivity.
  - destruct (terminal (step s)) eqn:Hopen.
    + simpl. rewrite (terminal_absorbs s e Hopen).
      specialize (IH s Hs). rewrite Hopen in IH. rewrite IH. reflexivity.
    + pose proof (react_sent s e Hs Hopen) as Hfirst.
      pose proof (react_consistent s e Hs) as Hnext.
      simpl. destruct (react s e) as [next sent]. cbn [fst snd] in *.
      specialize (IH next Hnext).
      destruct (terminal (step next)) eqn:Hdone.
      * rewrite IH. cbn [fst snd]. rewrite Hdone.
        destruct Hfirst as [why ->]. exists why. reflexivity.
      * rewrite Hfirst.
        destruct (run next rest) as [final later]. cbn [fst snd] in *.
        exact IH.
Qed.

(** X1. A flow that ended on the success or the success-alt panel went
    through every check of its branch: the job answer was yes, the four
    survey answers are set, the feedback has at least 25 characters, the visa
    type is not blank, and the panel is success exactly when the lawyer
    answer was yes. *)
Theorem finished_job_flow_is_validated (events : list Event) :
  let s := fst (run initialState events) in
  step s = FlowStep.success \/ step s = FlowStep.success_alt ->
  hasJob s = Some true
  /\ isSurveyValid s = true
  /\ (25 <= String.length (feedback s))%nat
  /\ Js.trim (visaType s) <> ""
  /\ hasLawyer s = Some (FlowStep.eqb (step s) FlowStep.success).
Proof.
  intros s Hstep.
  pose proof (run_consistent events initialState initialState_consistent) as Hs.
  fold s in Hs. destruct Hs as (_ & _ & Hs).
  assert (Hlength : isFeedbackValid s = true ->
                    (25 <= String.length (feedback s))%nat).
  { unfold isFeedbackValid, MIN_FEEDBACK_LENGTH. intros Hvalid.
    apply Z.leb_le in Hvalid. lia. }
  destruct Hstep as [Hstep | Hstep]; rewrite Hstep in Hs |- *;
    destruct Hs as (Hjob & Hsurvey & Hfeedback & Hlawyer & Hvisa);
    repeat split; auto.
Qed.

Lemma finished_job_flow_is_validated_witness :
  step (fst (run initialState job_found_session)) = FlowStep.success
  /\ hasLawyer (fst (run initialState job_found_session)) = Some true
  /\ isSurveyValid (fst (run initialState job_found_session)) = true.
Proof.
  destruct (finished_job_flow_is_validated job_found_session)
    as (_ & Hsurvey & _ & _ & Hlawyer).
  - left. reflexivity.
  - split; [reflexivity | split; [exact Hlawyer | exact Hsurvey]].
Defined.

(** X2. At every step but job-question the state holds the job answer that
    leads to the branch of the step: yes on the survey, feedback,
    congratulations, visa and success panels, no on the retention panels. *)
Theorem branch_matches_job_answer (events : list Event) :
  let s := fst (run initialState events) in
  match step s with
  | FlowStep.job_question => True
  | st => hasJob s = Some (job_branch st)
  end.
Proof.
  intros s.
  pose proof (run_consistent events initialState initialState_consistent) as Hs.
  fold s in Hs. destruct Hs as (_ & _ & Hs).
  unfold job_found, still_looking in Hs.
  destruct (step s); cbn [job_branch]; try exact I; tauto.
Qed.

(** X3. In a session the fallback of the reason routing is never taken: at
    retention-reason the submit action does not lead to retention-final. *)
Theorem reason_fallback_is_never_taken (events : list Event) :
  let s := fst (run initialState events) in
  step s = FlowStep.retention_reason ->
  step (fst (transition s Submit)) <> FlowStep.retention_final
  /\ (step (fst (transition s Submit)) = FlowStep.retention_reason
      \/ reason_of_step (step (fst (transition s Submit)))
         = RetentionData.cancellationReason (retentionData s)).
Proof.
  intros s Hstep.
  pose proof (run_consistent events initialState initialState_consistent) as Hs.
  fold s in Hs. destruct Hs as (Hreason & _ & _).
  unfold reason_offered in Hreason.
  unfold transition, button, idle, handleRetentionReasonSubmit. rewrite Hstep.
  destruct (RetentionData.cancellationReason (retentionData s)) as [why |];
    cbn [Js.truthy_nullable negb fst];
    [| rewrite Hstep; split; [discriminate | left; reflexivity]].
  destruct (Js.truthy_string why); cbn [negb fst];
    [| rewrite Hstep; split; [discriminate | left; reflexivity]].
  pose proof (nextStep_offered why Hreason) as Hroute.
  cbn [with_completedSteps with_step step].
  split; [| right; exact Hroute].
  intros Hfinal. rewrite Hfinal in Hroute. discriminate Hroute.
Qed.

Lemma reason_fallback_is_never_taken_witness :
  step (fst (run initialState reason_session)) = FlowStep.retention_reason
  /\ step (fst (transition (fst (run initialState reason_session)) Submit))
     <> FlowStep.retention_final.
Proof.
  split; [reflexivity |].
  apply (reason_fallback_is_never_taken reason_session). reflexivity.
Defined.

(** X4. A session dispatches no submission before it reaches a closing
    panel and exactly one when it does; the submission is an accepted one
    exactly on the retention-accepted panel. *)
Theorem one_submission_per_session (events : list Event) :
  let s := fst (run initialState events) in
  let sent := snd (run initialState events) in
  if terminal (step s)
  then exists why,
         sent = [ {| accepted_downsell :=
                       FlowStep.eqb (step s) FlowStep.retention_accepted;
                     reason := Some why |} ]
  else sent = [].
Proof.
  intros s sent. subst s sent.
  exact (run_sent events initialState initialState_consistent).
Qed.

(** X5. A closing panel ends the flow: on success, success-alt,
    retention-accepted and retention-final no event, the back button
    included, changes the state or dispatches a submission. *)
Theorem finished_flow_ignores_events (s : FlowState) (events : list Event) :
  terminal (step s) = true ->
  run s events = (s, []).
Proof.
  intros Hdone. induction events as [| e rest IH]; simpl; [reflexivity |].
  rewrite (terminal_absorbs s e Hdone), IH. reflexivity.
Qed.

Lemma finished_flow_ignores_events_witness :
  let s := fst (run initialState job_found_session) in
  run s [ Act Back; Act Submit; Act (Accept true); Fill (VisaTypeText "") ]
  = (s, []).
Proof.
  intros s. apply (finished_flow_ignores_events s). reflexivity.
Defined.

(** X6. The navigation controls never touch what the user has entered: the
    survey answers, the feedback, the visa type and the retention answers
    are the same after every action. *)
Theorem navigation_keeps_answers (s : FlowState) (a : Action) :
  surveyData (fst (transition s a)) = surveyData s
  /\ feedback (fst (transition s a)) = feedback s
  /\ visaType (fst (transition s a)) = visaType s
  /\ retentionData (fst (transition s a)) = retentionData s.
Proof.
  destruct s as [st hj sd fb hl vt cs rd].
  unfold transition, showBackButton, goBack, button, idle.
  cbn [step hasLawyer].
  destruct st; destruct a as [b | | | [|] |]; cbn [backMap FlowStep.eqb];
    try (repeat split; fail);
    try (destruct hl as [[|] |]; repeat split; fail);
    match goal with
    | |- context [if negb ?g then _ else _] => destruct g
    end; repeat split.
Qed.

Lemma fill_keeps_step (s : FlowState) (i : Input) :
  step (fill s i) = step s.
Proof.
  destruct s as [st hj sd fb hl vt cs rd]. unfold fill. cbn [step].
  destruct st; destruct i as [u | u | v | v | v | v]; try reflexivity;
    try (destruct (survey_offers u); reflexivity);
    destruct (retention_offers _ u); reflexivity.
Qed.

(** X7. The answer and text controls never move the flow: the step, the job
    answer, the lawyer answer and the step counter are the same after every
    input. *)
Theorem inputs_keep_position (s : FlowState) (i : Input) :
  step (fill s i) = step s
  /\ hasJob (fill s i) = hasJob s
  /\ hasLawyer (fill s i) = hasLawyer s
  /\ completedSteps (fill s i) = completedSteps s.
Proof.
  destruct s as [st hj sd fb hl vt cs rd]. unfold fill. cbn [step].
  destruct st; destruct i as [u | u | v | v | v | v]; try (repeat split; fail);
    try (destruct (survey_offers u); repeat split; fail);
    destruct (retention_offers _ u); repeat split.
Qed.

(** X8. Going back from a visa panel clears the lawyer answer, and giving
    the same answer again restores the state as it was. *)
Theorem back_and_answer_again (events : list Event) (b : bool) :
  let s := fst (run initialState events) in
  step s = (if b then FlowStep.visa_yes else FlowStep.visa_no) ->
  hasLawyer (fst (transition s Back)) = None
  /\ transition (fst (transition s Back)) (Answer b) = (s, []).
Proof.
  intros s Hstep.
  pose proof (run_consistent events initialState initialState_consistent) as Hs.
  fold s in Hs. destruct Hs as (_ & _ & Hs).
  destruct s as [st hj sd fb hl vt cs rd]. cbn [step] in *. subst st.
  destruct b; destruct Hs as (_ & _ & _ & Hlawyer); cbn in Hlawyer; subst hl;
    split; reflexivity.
Qed.

Lemma back_and_answer_again_witness :
  let s := fst (run initialState (firstn 11 job_found_session)) in
  step s = FlowStep.visa_yes
  /\ step (fst (transition s Back)) = FlowStep.visa_support
  /\ transition (fst (transition s Back)) (Answer true) = (s, []).
Proof.
  intros s.
  destruct (back_and_answer_again (firstn 11 job_found_session) true)
    as (_ & Hagain).
  - reflexivity.
  - split; [reflexivity | split; [reflexivity | exact Hagain]].
Defined.

Lemma react_stays_in_retention (s : FlowState) (e : Event) :
  retention_branch (step s) = true ->
  retention_branch (step (fst (react s e))) = true.
Proof.
  destruct e as [a | i]; cbn [react fst].
  2:{ rewrite (fill_keeps_step s i). auto. }
  destruct s as [st hj sd fb hl vt cs rd].
  unfold transition, showBackButton, goBack, button, idle. cbn [step].
  destruct st; try discriminate; intros _;
    destruct a as [b | | | [|] |]; cbn [backMap FlowStep.eqb];
    try reflexivity;
    try (match goal with
         | |- context [if negb ?g then _ else _] => destruct g
         end; try reflexivity).
  cbn. destruct (nextStep _) eqn:Hroute; try reflexivity;
    exfalso; revert Hroute; unfold nextStep;
    destruct (RetentionData.cancellationReason rd) as [why |];
      try discriminate;
    destruct (Js.truthy_string why); try discriminate;
    unfold stepMap; simpl list_to_map;
    repeat (rewrite lookup_insert; case_decide; try discriminate);
    rewrite lookup_empty; discriminate.
Qed.

(** X9. The retention branch is one-way: once the flow is on a retention
    panel, no sequence of events leads back to the job question or into the
    other branch. *)
Theorem retention_branch_is_one_way (s : FlowState) (events : list Event) :
  retention_branch (step s) = true ->
  retention_branch (step (fst (run s events))) = true.
Proof.
  revert s. induction events as [| e rest IH]; intros s Hs; simpl; [exact Hs |].
  pose proof (react_stays_in_retention s e Hs) as Hnext.
  destruct (react s e) as [next sent]. cbn [fst] in Hnext.
  specialize (IH next Hnext).
  destruct (run next rest) as [final later]. exact IH.
Qed.

Lemma retention_branch_is_one_way_witness :
  let s := fst (run initialState reason_session) in
  retention_branch
    (step (fst (run s [ Act Back; Act Back; Act Back; Act Back ]))) = true
  /\ step (fst (run s [ Act Back; Act Back; Act Back; Act Back ]))
     = FlowStep.retention_offer.
Proof.
  intros s. split; [| reflexivity].
  apply (retention_branch_is_one_way s). reflexivity.
Defined.

(** X10. In a session, the submit action of a reason-feedback panel with a
    text of at least 25 characters ends the flow on retention-final and
    dispatches one submission, not accepted, whose reason is the reason of
    that panel, a colon and the text. *)
Theorem reason_feedback_is_submitted (events : list Event) :
  let s := fst (run initialState events) in
  reason_feedback_step (step s) = true ->
  (25 <= String.length (RetentionData.reasonFeedback (retentionData s)))%nat ->
  exists why,
    reason_of_step (step s) = Some why
    /\ transition s Submit =
         (with_completedSteps (with_step s FlowStep.retention_final) 3,
          [ {| accepted_downsell := false;
               reason :=
                 Some (why +:+ ": "
                       +:+ RetentionData.reasonFeedback (retentionData s)) |} ]).
Proof.
  intros s Hstep Hlong.
  pose proof (run_consistent events initialState initialState_consistent) as Hs.
  fold s in Hs. destruct Hs as (_ & _ & Hs).
  assert (Hvalid : isReasonFeedbackValid s = true).
  { unfold isReasonFeedbackValid, MIN_FEEDBACK_LENGTH. apply Z.leb_le. lia. }
  unfold transition, button, handleReasonFeedbackSubmit, submitCancellation.
  destruct (step s) eqn:Hat; try discriminate; rewrite Hvalid;
    destruct Hs as (_ & _ & Hwhy); rewrite Hwhy;
    eexists; (split; [reflexivity |]); reflexivity.
Qed.

Lemma reason_feedback_is_submitted_witness :
  snd (transition (fst (run initialState platform_session)) Submit)
  = [ {| accepted_downsell := false;
         reason := Some "Platform not helpful: The search filters never matched my field." |} ].
Proof.
  destruct (reason_feedback_is_submitted platform_session) as (why & Hwhy & Hrun).
  - reflexivity.
  - vm_compute. lia.
  - reflexivity.
Defined.

Lemma fill_survey_offered (s : FlowState) (u : SurveyUpdate) :
  step s = FlowStep.survey ->
  survey_offers u = true ->
  fill s (SurveyAnswer u) = updateSurveyData u s.
Proof.
  intros Hstep Hoffers. unfold fill. rewrite Hstep, Hoffers. reflexivity.
Qed.

(** X12. On the survey panel, answering the four questions with any of the
    offered options (the option "0" included) enables the forward button:
    the submit action then leads to the feedback panel. *)
Theorem answered_survey_can_be_submitted (s : FlowState) (found : bool)
    (roles emailed interviewed : string) :
  step s = FlowStep.survey ->
  In roles ROLE_OPTIONS ->
  In emailed ROLE_OPTIONS ->
  In interviewed INTERVIEW_OPTIONS ->
  let answered :=
    fst (run s [ Fill (SurveyAnswer (Survey_foundJobWithMM found));
                 Fill (SurveyAnswer (Survey_rolesApplied roles));
                 Fill (SurveyAnswer (Survey_companiesEmailed emailed));
                 Fill (SurveyAnswer (Survey_companiesInterviewed interviewed)) ]) in
  isSurveyValid answered = true
  /\ step (fst (transition answered Submit)) = FlowStep.feedback.
Proof.
  intros Hstep Hroles Hemailed Hinterviewed.
  assert (Hr : survey_offers (Survey_rolesApplied roles) = true)
    by (apply offered_In; exact Hroles).
  assert (He : survey_offers (Survey_companiesEmailed emailed) = true)
    by (apply offered_In; exact Hemailed).
  assert (Hi : survey_offers (Survey_companiesInterviewed interviewed) = true)
    by (apply offered_In; exact Hinterviewed).
  assert (Htr : Js.truthy_string roles = true)
    by (apply truthy_string_true; intros ->; simpl in Hroles;
        intuition discriminate).
  assert (Hte : Js.truthy_string emailed = true)
    by (apply truthy_string_true; intros ->; simpl in Hemailed;
        intuition discriminate).
  assert (Hti : Js.truthy_string interviewed = true)
    by (apply truthy_string_true; intros ->; simpl in Hinterviewed;
        intuition discriminate).
  intros answered. subst answered.
  change (fst (run s _)) with
    (fill (fill (fill (fill s (SurveyAnswer (Survey_foundJobWithMM found)))
                   (SurveyAnswer (Survey_rolesApplied roles)))
             (SurveyAnswer (Survey_companiesEmailed emailed)))
       (SurveyAnswer (Survey_companiesInterviewed interviewed))).
  rewrite (fill_survey_offered s (Survey_foundJobWithMM found) Hstep eq_refl).
  set (s1 := updateSurveyData (Survey_foundJobWithMM found) s).
  rewrite (fill_survey_offered s1 (Survey_rolesApplied roles) Hstep Hr).
  set (s2 := updateSurveyData (Survey_rolesApplied roles) s1).
  rewrite (fill_survey_offered s2 (Survey_companiesEmailed emailed) Hstep He).
  set (s3 := updateSurveyData (Survey_companiesEmailed emailed) s2).
  rewrite (fill_survey_offered s3 (Survey_companiesInterviewed interviewed)
             Hstep Hi).
  subst s1 s2 s3.
  match goal with |- isSurveyValid ?final = true /\ _ =>
    assert (Hvalid : isSurveyValid final = true)
  end.
  { unfold isSurveyValid. cbn. rewrite Htr, Hte, Hti. reflexivity. }
  split; [exact Hvalid |].
  unfold transition, button. cbn [step updateSurveyData with_surveyData].
  rewrite Hstep, Hvalid. reflexivity.
Qed.

Lemma answered_survey_can_be_submitted_witness :
  step
    (fst (transition
            (fst (run (with_step initialState FlowStep.survey)
                    [ Fill (SurveyAnswer (Survey_foundJobWithMM false));
                      Fill (SurveyAnswer (Survey_rolesApplied "0"));
                      Fill (SurveyAnswer (Survey_companiesEmailed "0"));
                      Fill (SurveyAnswer (Survey_companiesInterviewed "0")) ]))
            Submit))
  = FlowStep.feedback.
Proof.
  apply (answered_survey_can_be_submitted
           (with_step initialState FlowStep.survey) false "0" "0" "0").
  - reflexivity.
  - simpl. tauto.
  - simpl. tauto.
  - simpl. tauto.
Defined.

(** X27. In every session the step counter stays between 0 and 3. *)
Theorem step_counter_is_bounded (events : list Event) :
  0 <= completedSteps (fst (run initialState events)) <= 3.
Proof.
  pose proof (run_consistent events initialState initialState_consistent) as Hs.
  destruct Hs as (_ & Hcount & _). exact Hcount.
Qed.

(** * The route and the hook together *)

Ltac settle_response :=
  do 2 eexists; split; [reflexivity |];
  cbn [http_status success variant];
  repeat split; auto; try discriminate;
  try (intros Hsome; exfalso; apply Hsome; reflexivity).

(** X13. [POST] always answers: whatever the request and however the
    storage behaves, it resolves to a response with status 200, 400 or 500;
    [success] is true exactly for status 200, and only a 200 answer carries
    a variant. *)
Theorem POST_always_answers (request : Request) (w : World) :
  exists response w',
    POST request w = (Resolved response, w')
    /\ (http_status response = 200 \/ http_status response = 400
        \/ http_status response = 500)
    /\ success response = (http_status response =? 200)
    /\ (variant response <> None -> http_status response = 200).
Proof.
  destruct request as [| | body]; [settle_response | settle_response |].
  destruct (truthy (Body.user_id body)) eqn:Huser;
    [| unfold POST, try_catch, await, request_json, resolve; rewrite Huser;
       settle_response ].
  destruct (truthy (Body.subscription_id body)) eqn:Hsub;
    [| unfold POST, try_catch, await, request_json, resolve;
       rewrite Huser, Hsub; settle_response ].
  destruct (truthy (Body.get_variant body)) eqn:Hget.
  - rewrite (POST_variant_branch body w Huser Hsub Hget).
    destruct (getOrAssignVariant _ _ w) as [[assigned | why] w'];
      settle_response.
  - unfold POST, try_catch, await at 1, request_json, resolve at 1.
    rewrite Huser, Hsub, Hget. cbn [negb orb andb].
    destruct (Body.accepted_downsell body) as [| | accepted | | |];
      try settle_response.
    destruct (truthy (Body.reason body)
              && negb (String.eqb (typeof (Body.reason body)) "string"));
      [settle_response |].
    unfold await, update_cancellations, update_subscriptions, call, resolve.
    destruct (backend w (storage_calls w)); destruct accepted; simpl;
      try settle_response;
      destruct (backend w (S (storage_calls w))); settle_response.
Qed.

(** X14. The 400 answers of [POST], for a body that parsed: the status is
    400 exactly when an identifier is falsy, or the body asks for no variant
    and [accepted_downsell] is not a boolean or [reason] is truthy and not a
    string; a 400 answer has [success = false] and leaves the world as it
    was. *)
Theorem rejection_conditions (body : Body) (w : World) :
  exists response w',
    POST (Json body) w = (Resolved response, w')
    /\ (http_status response = 400 <->
        truthy (Body.user_id body) = false
        \/ truthy (Body.subscription_id body) = false
        \/ (truthy (Body.get_variant body) = false
            /\ (typeof (Body.accepted_downsell body) <> "boolean"
                \/ (truthy (Body.reason body) = true
                    /\ typeof (Body.reason body) <> "string"))))
    /\ (http_status response = 400 -> success response = false /\ w' = w).
Proof.
  destruct (POST_bad_request body w) as (response & w' & Hrun & Hiff & Hframe).
  exists response, w'. split; [exact Hrun | split; [| exact Hframe]].
  rewrite Hiff. unfold bad_request.
  rewrite !orb_true_iff, andb_true_iff, orb_true_iff, andb_true_iff,
    !negb_true_iff.
  assert (Hbool : match Body.accepted_downsell body with
                  | VBoolean _ => false
                  | _ => true
                  end = true
                  <-> typeof (Body.accepted_downsell body) <> "boolean").
  { destruct (Body.accepted_downsell body); simpl; split; intros H;
      try reflexivity; try discriminate; congruence. }
  assert (Hstring : String.eqb (typeof (Body.reason body)) "string" = false
                    <-> typeof (Body.reason body) <> "string").
  { apply String.eqb_neq. }
  rewrite Hbool, Hstring. tauto.
Qed.

(** What [POST] can have done to the cancellation records. *)
Lemma POST_cancellations (request : Request) (w : World) :
  cancellations (snd (POST request w)) = cancellations w
  \/ (exists body,
        request = Json body
        /\ (lookup_reply w = Served ->
            stored (Body.user_id body) (Body.subscription_id body) w = None)
        /\ cancellations (snd (POST request w))
           = (cancellations w
              ++ [fresh_row (Body.user_id body) (Body.subscription_id body)
                    (drawn w) w])%list)
  \/ (exists body accepted,
        request = Json body
        /\ cancellations (snd (POST request w))
           = recorded accepted (Body.reason body) (Body.user_id body)
               (Body.subscription_id body) (cancellations w)).
Proof.
  destruct request as [| | body]; [left; reflexivity | left; reflexivity |].
  destruct (truthy (Body.user_id body)) eqn:Huser;
    [| left; unfold POST, try_catch, await, request_json, resolve;
       rewrite Huser; reflexivity ].
  destruct (truthy (Body.subscription_id body)) eqn:Hsub;
    [| left; unfold POST, try_catch, await, request_json, resolve;
       rewrite Huser, Hsub; reflexivity ].
  destruct (truthy (Body.get_variant body)) eqn:Hget.
  - rewrite (POST_variant_branch body w Huser Hsub Hget).
    rewrite getOrAssignVariant_cases. cbv zeta.
    destruct (lookup_reply w) eqn:Hlookup;
      [destruct (stored _ _ w) eqn:Hstored | |];
      try (left; reflexivity);
      (destruct (insert_reply w);
       [ right; left; exists body; split; [reflexivity |];
         split; [intros Hs; (assumption || discriminate Hs) | reflexivity]
       | left; reflexivity | left; reflexivity ]).
  - remember (POST (Json body) w) as out eqn:Hout.
    unfold POST, try_catch, await at 1, request_json, resolve at 1 in Hout.
    rewrite Huser, Hsub, Hget in Hout. cbn [negb orb andb] in Hout.
    destruct (Body.accepted_downsell body) as [| | accepted | | |];
      try (subst out; left; reflexivity).
    destruct (truthy (Body.reason body)
              && negb (String.eqb (typeof (Body.reason body)) "string"));
      [subst out; left; reflexivity |].
    unfold await, update_cancellations, update_subscriptions, call, resolve
      in Hout.
    destruct (backend w (storage_calls w)); destruct accepted; simpl in Hout;
      try (subst out; left; reflexivity);
      try (subst out; right; right; exists body; eexists; split; reflexivity);
      destruct (backend w (S (storage_calls w))); subst out;
      try (left; reflexivity);
      right; right; exists body; eexists; split; reflexivity.
Qed.

Lemma recorded_assignment (accepted : bool) (why userId subscriptionId : Value)
    (rows : list Cancellation) :
  List.map assignment (recorded accepted why userId subscriptionId rows)
  = List.map assignment rows.
Proof.
  unfold recorded. rewrite List.map_map. apply List.map_ext.
  intros row. destruct (of_pair userId subscriptionId row); reflexivity.
Qed.


(** X15. The route never deletes a cancellation record and never rewrites
    the assignment of one: after any request, however the storage behaves,
    the records that were there keep their id, identity pair, variant and
    creation time, in the same order, and at most one record was added. *)
Theorem stored_assignments_are_permanent (request : Request) (w : World) :
  exists added,
    (List.length added <= 1)%nat
    /\ List.map assignment (cancellations (snd (POST request w)))
       = (List.map assignment (cancellations w) ++ List.map assignment added)%list.
Proof.
  destruct (POST_cancellations request w)
    as [Hsame | [(body & _ & _ & Hadded) | (body & accepted & _ & Hupdated)]].
  - exists []. rewrite Hsame, List.app_nil_r. split; [simpl; lia | reflexivity].
  - eexists [_]. rewrite Hadded, List.map_app. split; [simpl; lia | reflexivity].
  - exists []. rewrite Hupdated, recorded_assignment, List.app_nil_r.
    split; [simpl; lia | reflexivity].
Qed.




(** X17. A lookup that fails with an error while the pair has its record
    breaks the key: the call draws a variant of its own, the served insert
    stores a second record for the pair, and from then on a served lookup
    finds no single record. *)
Theorem refused_lookup_breaks_the_key (userId subscriptionId : Value) (w : World)
    (row : Cancellation) :
  In row (cancellations w) ->
  of_pair userId subscriptionId row = true ->
  lookup_reply w = Refused ->
  insert_reply w = Served ->
  let out := getOrAssignVariant userId subscriptionId w in
  fst out = Resolved (drawn w)
  /\ ~ unique_pairs (cancellations (snd out))
  /\ stored userId subscriptionId (snd out) = None.
Proof.
  intros Hin Hrow Hlookup Hinsert out. subst out.
  rewrite getOrAssignVariant_cases. cbv zeta. rewrite Hlookup, Hinsert.
  cbn [fst snd cancellations with_cancellations].
  split; [reflexivity |].
  assert (Hpair : identity row = (userId, subscriptionId))
    by (apply of_pair_identity; exact Hrow).
  split.
  - unfold unique_pairs. rewrite List.map_app. cbn [List.map].
    change (identity (fresh_row userId subscriptionId (drawn w) w))
      with (userId, subscriptionId).
    intros Hkey. apply NoDup_remove_2 in Hkey. apply Hkey.
    rewrite List.app_nil_r, <- Hpair. apply in_map. exact Hin.
  - unfold stored. cbn [cancellations with_cancellations].
    rewrite List.filter_app. cbn [List.filter].
    assert (Hnew : of_pair userId subscriptionId
                     (fresh_row userId subscriptionId (drawn w) w) = true)
      by (apply of_pair_identity; reflexivity).
    rewrite Hnew.
    destruct (List.filter (of_pair userId subscriptionId) (cancellations w))
      as [| first rest] eqn:Hfilter.
    + exfalso.
      assert (Hmember : In row (List.filter (of_pair userId subscriptionId)
                                  (cancellations w)))
        by (apply List.filter_In; split; assumption).
      rewrite Hfilter in Hmember. exact Hmember.
    + destruct rest; reflexivity.
Qed.

Lemma refused_lookup_breaks_the_key_witness :
  let w := world_of [sample_row] []
             (fun k => match k with O => Refused | _ => Served end) in
  let out := getOrAssignVariant (VString "user-1") (VString "sub-1") w in
  fst out = Resolved A
  /\ stored (VString "user-1") (VString "sub-1") (snd out) = None.
Proof.
  intros w out.
  destruct (refused_lookup_breaks_the_key (VString "user-1") (VString "sub-1")
              w sample_row) as (Hresult & _ & Hstored).
  - simpl. left. reflexivity.
  - reflexivity.
  - reflexivity.
  - reflexivity.
  - split; [exact Hresult | exact Hstored].
Defined.

(** X18. A storage failure reported in the result does not reach the
    client: when the storage refuses the calls of a valid submission, the
    answer is still status 200 with [success = true], and nothing has been
    written to either table. *)
Theorem refused_submission_reports_success (body : Body) (accepted : bool)
    (w : World) :
  truthy (Body.user_id body) = true ->
  truthy (Body.subscription_id body) = true ->
  truthy (Body.get_variant body) = false ->
  Body.accepted_downsell body = VBoolean accepted ->
  (Body.reason body = VUndefined \/ exists why, Body.reason body = VString why) ->
  (forall k, backend w k = Refused) ->
  fst (POST (Json body) w) = Resolved (mkResponse 200 true None None)
  /\ cancellations (snd (POST (Json body) w)) = cancellations w
  /\ subscriptions (snd (POST (Json body) w)) = subscriptions w.
Proof.
  intros Huser Hsub Hget Haccepted Hreason Hrefused.
  assert (Hpasses : truthy (Body.reason body)
                    && negb (String.eqb (typeof (Body.reason body)) "string")
                    = false).
  { destruct Hreason as [-> | [why ->]]; [reflexivity |].
    apply andb_false_intro2. reflexivity. }
  remember (POST (Json body) w) as out eqn:Hout.
  unfold POST, try_catch, await at 1, request_json, resolve at 1 in Hout.
  rewrite Huser, Hsub, Hget, Haccepted, Hpasses in Hout.
  cbn [negb orb andb] in Hout.
  unfold await, update_cancellations, update_subscriptions, call, resolve in Hout.
  rewrite Hrefused in Hout. simpl in Hout.
  destruct accepted; simpl in Hout; [subst out; repeat split |].
  rewrite Hrefused in Hout. subst out. repeat split.
Qed.

Lemma refused_submission_reports_success_witness :
  let w := world_of [sample_row] [sample_subscription] (fun _ => Refused) in
  fst (POST (Json (sample_submission false)) w)
    = Resolved (mkResponse 200 true None None)
  /\ cancellations (snd (POST (Json (sample_submission false)) w)) = [sample_row]
  /\ subscriptions (snd (POST (Json (sample_submission false)) w))
     = [sample_subscription].
Proof.
  intros w.
  apply (refused_submission_reports_success (sample_submission false) false w).
  - reflexivity.
  - reflexivity.
  - reflexivity.
  - reflexivity.
  - right. exists "Completed visa support flow". reflexivity.
  - intros k. reflexivity.
Defined.

(** X19. The two writes of a declined submission are not one unit: when the
    update of the cancellation records is served and the update of the
    subscription rejects, the answer is status 500 while the cancellation
    records already carry the outcome and the subscription is unchanged. *)
Theorem declined_submission_is_not_atomic (body : Body) (w : World) :
  truthy (Body.user_id body) = true ->
  truthy (Body.subscription_id body) = true ->
  truthy (Body.get_variant body) = false ->
  Body.accepted_downsell body = VBoolean false ->
  (Body.reason body = VUndefined \/ exists why, Body.reason body = VString why) ->
  backend w (storage_calls w) = Served ->
  backend w (S (storage_calls w)) = Crashed ->
  fst (POST (Json body) w)
    = Resolved (mkResponse 500 false (Some "Internal server error") None)
  /\ cancellations (snd (POST (Json body) w))
     = recorded false (Body.reason body) (Body.user_id body)
         (Body.subscription_id body) (cancellations w)
  /\ subscriptions (snd (POST (Json body) w)) = subscriptions w.
Proof.
  intros Huser Hsub Hget Haccepted Hreason Hfirst Hsecond.
  assert (Hpasses : truthy (Body.reason body)
                    && negb (String.eqb (typeof (Body.reason body)) "string")
                    = false).
  { destruct Hreason as [-> | [why ->]]; [reflexivity |].
    apply andb_false_intro2. reflexivity. }
  remember (POST (Json body) w) as out eqn:Hout.
  unfold POST, try_catch, await at 1, request_json, resolve at 1 in Hout.
  rewrite Huser, Hsub, Hget, Haccepted, Hpasses in Hout.
  cbn [negb orb andb] in Hout.
  unfold await, update_cancellations, update_subscriptions, call, resolve in Hout.
  rewrite Hfirst in Hout. simpl in Hout.
  rewrite Hsecond in Hout. subst out. repeat split.
Qed.

Lemma declined_submission_is_not_atomic_witness :
  let w := world_of [sample_row] [sample_subscription]
             (fun k => match k with O => Served | _ => Crashed end) in
  let out := POST (Json (sample_submission false)) w in
  http_status
    (match fst out with
     | Resolved response => response
     | Rejected _ => mkResponse 0 false None None
     end) = 500
  /\ List.map Cancellation.accepted_downsell (cancellations (snd out))
     = [Some false]
  /\ List.map Subscription.status (subscriptions (snd out)) = [active].
Proof.
  intros w out.
  destruct (declined_submission_is_not_atomic (sample_submission false) w)
    as (Hanswer & Hrows & Hsubs).
  - reflexivity.
  - reflexivity.
  - reflexivity.
  - reflexivity.
  - right. exists "Completed visa support flow". reflexivity.
  - reflexivity.
  - reflexivity.
  - subst out. rewrite Hanswer, Hrows, Hsubs. repeat split.
Defined.

(** X20. The draw is even: of the 256 values of the random byte, 128 select
    variant A and 128 select variant B, and the variant depends on nothing
    but the parity of the byte. *)
Theorem draw_is_even_split :
  List.length
    (List.filter
       (fun b => match drawn (world_with_byte b) with A => true | B => false end)
       (List.map Z.of_nat (List.seq 0 256))) = 128%nat
  /\ forall w, drawn w = if Z.even (entropy w (random_reads w)) then A else B.
Proof.
  split; [vm_compute; reflexivity |].
  intros w. unfold drawn.
  set (x := entropy w (random_reads w)).
  assert (Hparity : (x mod 256) mod 2 = x mod 2).
  { apply Z.mod_mod_divide. exists 128. reflexivity. }
  rewrite Hparity, Zmod_even. destruct (Z.even x); reflexivity.
Qed.

(** X21. Without an identifier the hook sends nothing: with an empty user
    or subscription id the effect returns at once, the state stays as
    initialised with [loading] true, and the component shows its loading
    view for good. *)
Theorem hook_waits_without_identifier (userId subscriptionId : string)
    (w : World) (isOpen : bool) :
  userId = "" \/ subscriptionId = "" ->
  useCancellationFlow userId subscriptionId w = (hook_initial, w)
  /\ render (fst (useCancellationFlow userId subscriptionId w)) isOpen
     = LoadingView.
Proof.
  intros Hempty. unfold useCancellationFlow.
  assert (Hguard : negb (Js.truthy_string userId)
                   || negb (Js.truthy_string subscriptionId) = true).
  { destruct Hempty as [-> | ->]; [reflexivity |].
    apply orb_true_iff. right. reflexivity. }
  rewrite Hguard. split; reflexivity.
Qed.

Lemma hook_waits_without_identifier_witness :
  useCancellationFlow "" "sub-1" sample_world = (hook_initial, sample_world)
  /\ render (fst (useCancellationFlow "" "sub-1" sample_world)) true
     = LoadingView.
Proof.
  apply (hook_waits_without_identifier "" "sub-1" sample_world true).
  left. reflexivity.
Defined.


Lemma fetchVariant_is_first_run (fetched : Fetched) :
  fetchVariant fetched = refetch hook_initial fetched.
Proof.
  destruct fetched as [| response]; cbn [fetchVariant refetch]; [reflexivity |].
  destruct (ok response); destruct (success response); reflexivity.
Qed.


(** A failed run after a successful one: the variant of the first run is
    still held next to the error, and the error view is what is shown. *)
Lemma stale_variant_is_hidden :
  let first := fetchVariant (Received (mkResponse 200 true None (Some A))) in
  let second := refetch first NetworkDown in
  Hook.variant second = Some A
  /\ Hook.error second = Some "Network error"
  /\ render second true = ErrorView "Network error".
Proof. repeat split. Qed.

(** X23. The hook in front of the route, with both identifiers given: when
    [getOrAssignVariant] resolves, the hook holds its variant and the flow
    is shown; when a storage call rejects, the error is the text
    "Network error", not the message of the 500 answer.  Either way the
    store is left as [getOrAssignVariant] left it. *)
Theorem mounted_hook_outcome (userId subscriptionId : string) (w : World) :
  userId <> "" ->
  subscriptionId <> "" ->
  let assigned :=
    getOrAssignVariant (VString userId) (VString subscriptionId) w in
  let mounted := useCancellationFlow userId subscriptionId w in
  snd mounted = snd assigned
  /\ match fst assigned with
     | Resolved v =>
         fst mounted
           = {| Hook.variant := Some v; Hook.loading := false;
                Hook.error := None |}
         /\ render (fst mounted) true = FlowView v
     | Rejected _ =>
         fst mounted
           = {| Hook.variant := None; Hook.loading := false;
                Hook.error := Some "Network error" |}
         /\ render (fst mounted) true = ErrorView "Network error"
     end.
Proof.
  intros Huser Hsub assigned mounted. subst assigned mounted.
  apply truthy_string_true in Huser. apply truthy_string_true in Hsub.
  unfold useCancellationFlow, route_fetch, variant_request.
  rewrite Huser, Hsub. cbn [negb orb].
  rewrite POST_variant_branch by (cbn [Body.user_id Body.subscription_id
    Body.get_variant truthy]; assumption || reflexivity).
  cbn [Body.user_id Body.subscription_id].
  destruct (getOrAssignVariant (VString userId) (VString subscriptionId) w)
    as [[v | why] w']; cbn [fst snd]; repeat split.
Qed.

Lemma mounted_hook_outcome_witness :
  render (fst (useCancellationFlow "user-1" "sub-1" sample_world)) true
  = FlowView B.
Proof.
  destruct (mounted_hook_outcome "user-1" "sub-1" sample_world)
    as (_ & _ & Hview).
  - discriminate.
  - discriminate.
  - exact Hview.
Defined.

(** X24. The route accepts what the hook submits: the request that
    [submitCancellation] builds is answered with status 400 exactly when the
    user id or the subscription id is empty, whatever the submission and
    however the storage behaves. *)
Theorem hook_submission_passes_validation (userId subscriptionId : string)
    (sent : Submission) (w : World) :
  exists response w',
    POST (submission_request userId subscriptionId sent) w
      = (Resolved response, w')
    /\ (http_status response = 400 <-> userId = "" \/ subscriptionId = "").
Proof.
  unfold submission_request.
  match goal with
  | |- context [POST (Json ?b) w] =>
      destruct (POST_bad_request b w) as (response & w' & Hrun & Hiff & _)
  end.
  exists response, w'. split; [exact Hrun |].
  rewrite Hiff. unfold bad_request.
  cbn [Body.user_id Body.subscription_id Body.get_variant
       Body.accepted_downsell Body.reason truthy negb andb orb].
  assert (Hreason :
    truthy match reason sent with
           | Some why => VString why
           | None => VUndefined
           end
    && negb
         (String.eqb
            (typeof match reason sent with
                    | Some why => VString why
                    | None => VUndefined
                    end) "string") = false).
  { destruct (reason sent); [apply andb_false_intro2 |]; reflexivity. }
  rewrite Hreason, orb_false_r, orb_true_iff, !negb_true_iff.
  unfold Js.truthy_string. rewrite !negb_false_iff, !String.eqb_eq. tauto.
Qed.

(** X25. A session from the component to the store, with both identifiers
    given and the storage serving its calls: as long as the flow has not
    reached a closing panel nothing is sent and the store is untouched; a
    flow that ended marks the subscription pending_cancellation unless it
    ended on retention-accepted, and every cancellation record of the pair
    carries [accepted_downsell] true exactly on retention-accepted. *)
Theorem session_outcome_reaches_store (events : list Event)
    (userId subscriptionId : string) (w : World) :
  userId <> "" ->
  subscriptionId <> "" ->
  (forall k, backend w k = Served) ->
  let final := step (fst (run initialState events)) in
  let w' := deliver userId subscriptionId (snd (run initialState events)) w in
  if terminal final
  then
    subscriptions w'
      = (if FlowStep.eqb final FlowStep.retention_accepted
         then subscriptions w
         else marked_pending (clock w) (VString subscriptionId) (subscriptions w))
    /\ forall row,
         In row (cancellations w') ->
         of_pair (VString userId) (VString subscriptionId) row = true ->
         Cancellation.accepted_downsell row
           = Some (FlowStep.eqb final FlowStep.retention_accepted)
  else w' = w.
Proof.
  intros Huser Hsub Hserved final w'. subst final w'.
  pose proof (run_sent events initialState initialState_consistent) as Hsent.
  cbn [initialState step terminal] in Hsent.
  destruct (terminal (step (fst (run initialState events)))) eqn:Hdone.
  2:{ rewrite Hsent. reflexivity. }
  destruct Hsent as [why ->].
  set (accepted := FlowStep.eqb _ FlowStep.retention_accepted).
  cbn [deliver]. unfold route_fetch, submission_request.
  cbn [accepted_downsell reason].
  apply truthy_string_true in Huser. apply truthy_string_true in Hsub.
  match goal with
  | |- context [POST (Json ?b) w] =>
      rewrite (POST_submission_branch b accepted w Huser Hsub eq_refl eq_refl
                 (andb_false_r _) Hserved)
  end.
  cbn [snd Body.reason Body.user_id Body.subscription_id].
  destruct accepted; cbn [subscriptions cancellations with_cancellations
    with_subscriptions with_storage_calls counted]; (split; [reflexivity |]);
    intros row Hin Hrow; unfold recorded in Hin; apply in_map_iff in Hin;
    destruct Hin as (old & Hnew & _);
    (destruct (of_pair _ _ old) eqn:Hold;
     [subst row; reflexivity | subst row; congruence]).
Qed.

Lemma session_outcome_reaches_store_witness :
  let w' :=
    deliver "user-1" "sub-1" (snd (run initialState job_found_session))
      sample_world in
  List.map Subscription.status (subscriptions w') = [pending_cancellation]
  /\ List.map Cancellation.accepted_downsell (cancellations w') = [Some false].
Proof.
  intros w'.
  pose proof (session_outcome_reaches_store job_found_session "user-1" "sub-1"
                sample_world) as Hstore.
  cbv zeta in Hstore.
  destruct Hstore as (Hsubs & _).
  - discriminate.
  - discriminate.
  - intros k. reflexivity.
  - subst w'. rewrite Hsubs. split; reflexivity.
Defined.

Lemma first_call_settles_variant_witness :
  let w := world_of [] [] always_served in
  fst (sequential_calls 3 (VString "user-1") (VString "sub-1") w)
    = [Resolved A; Resolved A; Resolved A]
  /\ List.length
       (cancellations
          (snd (sequential_calls 3 (VString "user-1") (VString "sub-1") w)))
     = 1%nat.
Proof.
  intros w.
  destruct (first_call_settles_variant 2 (VString "user-1") (VString "sub-1") w)
    as (Hall & Hrows & _).
  - intros k. reflexivity.
  - constructor.
  - simpl. tauto.
  - rewrite Hall, Hrows. split; reflexivity.
Defined.
